(** * LinkedIn job scraper (main.py): a shallow embedding and its properties

    The script has three functions: [get_job_ids] (one listing request,
    identifiers read off the parsed markup), [scrape_job_details] (one detail
    request, five fields looked up by tag and class) and [main] (the loop over
    the identifiers, the randomised pause, the CSV file).

    Python strings are modelled by their UTF-8 bytes ([string]); effects by a
    state-and-exception monad over a [world] that counts the requests sent and
    the random numbers drawn and records the observable actions in a trace.
    The network, the random generator and the HTML parser are parameters of
    the development.  The first embedding ([get_job_ids],
    [scrape_job_details], [main]) is the script on pages that the parser
    accepts; module [Full] is the script with the parser's refusal, which
    no function catches, and with the number that [random.uniform] returns
    taken as it is.  The file system is taken to accept every write.  The
    libraries are modelled
    from their behaviour: [requests] (an exception or a response),
    BeautifulSoup ([find], [find_all], [get], [text]), pandas
    ([DataFrame] from a list of dicts, [to_csv] with its defaults) and the
    [csv] module that [to_csv] writes through.  Console output ([print]) is
    not modelled. *)

From Stdlib Require Import String Ascii List ZArith QArith Bool Lia Lqa.
From Stdlib Require Import DecimalString.
Import ListNotations.
Set Warnings "-register-all".
Close Scope Q_scope.
Open Scope nat_scope.
Open Scope list_scope.
Open Scope string_scope.

(** ** Strings *)

Module Str.

(** [str.split(sep)] for a one-character separator: every occurrence
    splits, and the result is never empty. *)
Fixpoint split (sep : ascii) (s : string) : list string :=
  match s with
  | EmptyString => [EmptyString]
  | String c rest =>
      if Ascii.eqb c sep then EmptyString :: split sep rest
      else match split sep rest with
           | x :: xs => String c x :: xs
           | [] => [String c EmptyString]
           end
  end.

(** [str.replace(old, new)] for one-character arguments. *)
Fixpoint replace (old new : ascii) (s : string) : string :=
  match s with
  | EmptyString => EmptyString
  | String c rest =>
      String (if Ascii.eqb c old then new else c) (replace old new rest)
  end.

(** [sep.join(l)]. *)
Fixpoint join (sep : string) (l : list string) : string :=
  match l with
  | [] => EmptyString
  | [x] => x
  | x :: rest => x ++ sep ++ join sep rest
  end.

Fixpoint rev_onto (s acc : string) : string :=
  match s with
  | EmptyString => acc
  | String c rest => rev_onto rest (String c acc)
  end.

Definition rev (s : string) : string := rev_onto s EmptyString.

Definition byte (n : nat) : ascii := ascii_of_nat n.

(** One-byte white space of [str.isspace]: TAB, LF, VT, FF, CR, the four
    separators 0x1c-0x1f and the space. *)
Definition is_ascii_space (c : ascii) : bool :=
  let n := nat_of_ascii c in
  (((9 <=? n) && (n <=? 13)) || ((28 <=? n) && (n <=? 32)))%nat.

(** Two-byte white space: U+0085 and U+00A0 (C2 85, C2 A0). *)
Definition is_space2 (a b : ascii) : bool :=
  ((nat_of_ascii a =? 194) &&
   ((nat_of_ascii b =? 133) || (nat_of_ascii b =? 160)))%nat.

(** Three-byte white space: U+1680, U+2000-U+200A, U+2028, U+2029, U+202F,
    U+205F, U+3000. *)
Definition is_space3 (a b c : ascii) : bool :=
  let x := nat_of_ascii a in
  let y := nat_of_ascii b in
  let z := nat_of_ascii c in
  (((x =? 225) && (y =? 154) && (z =? 128)) ||
   ((x =? 226) && (y =? 128) &&
      (((128 <=? z) && (z <=? 138)) || (z =? 168) || (z =? 169) || (z =? 175))) ||
   ((x =? 226) && (y =? 129) && (z =? 159)) ||
   ((x =? 227) && (y =? 128) && (z =? 128)))%nat.

(** [str.lstrip()]. *)
Fixpoint lstrip (s : string) : string :=
  match s with
  | EmptyString => EmptyString
  | String a r1 =>
      if is_ascii_space a then lstrip r1
      else match r1 with
           | EmptyString => s
           | String b r2 =>
               if is_space2 a b then lstrip r2
               else match r2 with
                    | EmptyString => s
                    | String c r3 =>
                        if is_space3 a b c then lstrip r3 else s
                    end
           end
  end.

(** [lstrip] on the reversed string: the encodings are matched backwards. *)
Fixpoint lstrip_rev (s : string) : string :=
  match s with
  | EmptyString => EmptyString
  | String a r1 =>
      if is_ascii_space a then lstrip_rev r1
      else match r1 with
           | EmptyString => s
           | String b r2 =>
               if is_space2 b a then lstrip_rev r2
               else match r2 with
                    | EmptyString => s
                    | String c r3 =>
                        if is_space3 c b a then lstrip_rev r3 else s
                    end
           end
  end.

Definition rstrip (s : string) : string := rev (lstrip_rev (rev s)).

(** [str.strip()]. *)
Definition strip (s : string) : string := rstrip (lstrip s).

(** [str(n)] for an [int]. *)
Definition of_Z (n : Z) : string := NilZero.string_of_int (Z.to_int n).

Definition is_unreserved (c : ascii) : bool :=
  let n := nat_of_ascii c in
  (((48 <=? n) && (n <=? 57)) || ((65 <=? n) && (n <=? 90)) ||
   ((97 <=? n) && (n <=? 122)) ||
   (n =? 95) || (n =? 46) || (n =? 45) || (n =? 126))%nat.

Definition hex_digit (n : nat) : ascii :=
  if (n <? 10)%nat then ascii_of_nat (48 + n) else ascii_of_nat (55 + n).

(** [urllib.parse.quote_plus]: unreserved bytes are kept, the space becomes
    [+], every other byte becomes [%XX]. *)
Fixpoint quote_plus (s : string) : string :=
  match s with
  | EmptyString => EmptyString
  | String c rest =>
      if is_unreserved c then String c (quote_plus rest)
      else if Ascii.eqb c " "%char then String "+"%char (quote_plus rest)
      else
        let n := nat_of_ascii c in
        String "%"%char
          (String (hex_digit (n / 16))
             (String (hex_digit (n mod 16)) (quote_plus rest)))
  end.

End Str.

(** ** Python values, dictionaries and exceptions *)

(** The values stored in a job record: [None] or a [str]. *)
Inductive pyval : Type :=
| PNone
| PStr (s : string).

Definition is_none (v : pyval) : bool :=
  match v with PNone => true | PStr _ => false end.

(** A [dict] with string keys, in insertion order. *)
Definition dict (V : Type) : Type := list (string * V).

Module Dict.

Fixpoint get {V} (d : dict V) (k : string) : option V :=
  match d with
  | [] => None
  | (k', v) :: rest => if String.eqb k' k then Some v else get rest k
  end.

(** [d[k] = v]: the value is replaced in place when the key exists, and the
    pair is added at the end otherwise. *)
Fixpoint set {V} (d : dict V) (k : string) (v : V) : dict V :=
  match d with
  | [] => [(k, v)]
  | (k', v') :: rest =>
      if String.eqb k' k then (k', v) :: rest else (k', v') :: set rest k v
  end.

Definition keys {V} (d : dict V) : list string := map fst d.

End Dict.

Inductive request_exception : Type :=
| ConnectionError
| Timeout
| TooManyRedirects
| HTTPError (status : Z).

Inductive exn : Type :=
| RequestException (e : request_exception)
| AttributeError
| IndexError
| ParserRejectedMarkup.

Definition is_RequestException (e : exn) : bool :=
  match e with RequestException _ => true | _ => false end.

Definition is_AttributeError (e : exn) : bool :=
  match e with AttributeError => true | _ => false end.

Definition is_AttributeError_or_IndexError (e : exn) : bool :=
  match e with AttributeError | IndexError => true | _ => false end.

(** ** The parsed document (BeautifulSoup) *)

(** An attribute value is a string, or a list of strings for the
    multi-valued attributes ([class] and the like), which the parser
    splits on white space. *)
Inductive attr_value : Type :=
| AttrStr (s : string)
| AttrList (l : list string).

(** A node of the tree: a text node, a string node that [.text] leaves out
    (a comment), or an element with its attributes and children. *)
Inductive node : Type :=
| NavigableString (s : string)
| Comment (s : string)
| Tag (name : string) (attrs : dict attr_value) (contents : list node).

Module Soup.

(** The nodes below [n] in document order, [n] itself excluded. *)
Fixpoint descendants (n : node) : list node :=
  match n with
  | Tag _ _ contents => flat_map (fun c => c :: descendants c) contents
  | _ => []
  end.

(** [tag.text]: the text nodes below the element, concatenated. *)
Fixpoint text (n : node) : string :=
  match n with
  | NavigableString s => s
  | Comment _ => EmptyString
  | Tag _ _ contents => String.concat EmptyString (map text contents)
  end.

Definition has_name (name : string) (n : node) : bool :=
  match n with
  | Tag name' _ _ => String.eqb name' name
  | _ => false
  end.

(** [tag.get(key)]. *)
Definition get (n : node) (key : string) : option attr_value :=
  match n with
  | Tag _ attrs _ => Dict.get attrs key
  | _ => None
  end.

(** How a search string is matched against an attribute: an absent
    attribute matches only the empty search string; a string value must be
    equal; a list value matches when one of its items is equal, or when
    the items joined by one space are. *)
Definition matches (v : option attr_value) (match_against : string) : bool :=
  match v with
  | None => String.eqb match_against EmptyString
  | Some (AttrStr s) => String.eqb s match_against
  | Some (AttrList l) =>
      existsb (fun item => String.eqb item match_against) l
      || String.eqb (Str.join " " l) match_against
  end.

Definition matches_tag (name class : string) (n : node) : bool :=
  has_name name n && matches (get n "class") class.

(** [tag.find_all(name)]. *)
Definition find_all (n : node) (name : string) : list node :=
  filter (has_name name) (descendants n).

(** [tag.find(name, {"class": class})]: the first match in document
    order, or [None]. *)
Definition find (n : node) (name class : string) : option node :=
  List.find (matches_tag name class) (descendants n).

End Soup.

(** ** The world: network, random generator, trace of actions *)

(** What [requests.get] hands back when it does not raise. *)
Record Response : Type := { status_code : Z; text : string }.

(** The actions of a run that the outside can observe, in the order they
    happen: a GET request, an [append] to the orchestrator's [job_list], a
    [time.sleep], the file written by [to_csv]. *)
Inductive event : Type :=
| EvGet (url : string) (headers : dict string)
| EvAppend (job_details : dict pyval)
| EvSleep (seconds : Q)
| EvToCsv (path contents : string).

Record world : Type := {
  requests_sent : nat;
  randoms_drawn : nat;
  trace : list event
}.

Definition initial_world : world :=
  {| requests_sent := 0; randoms_drawn := 0; trace := [] |}.

Definition log (e : event) (w : world) : world :=
  {| requests_sent := requests_sent w;
     randoms_drawn := randoms_drawn w;
     trace := trace w ++ [e] |}.

(** A computation returns a value or raises; the world it has changed is
    kept in both cases. *)
Inductive outcome (A : Type) : Type :=
| Ok (a : A)
| Raise (e : exn).
Arguments Ok {A} a.
Arguments Raise {A} e.

Definition M (A : Type) : Type := world -> outcome A * world.

Definition ret {A} (a : A) : M A := fun w => (Ok a, w).

Definition raise {A} (e : exn) : M A := fun w => (Raise e, w).

Definition bind {A B} (m : M A) (k : A -> M B) : M B :=
  fun w =>
    match m w with
    | (Ok a, w') => k a w'
    | (Raise e, w') => (Raise e, w')
    end.

(** [try: m except <classes>: handler]. *)
Definition try_except {A} (m : M A) (catches : exn -> bool)
    (handler : exn -> M A) : M A :=
  fun w =>
    match m w with
    | (Ok a, w') => (Ok a, w')
    | (Raise e, w') => if catches e then handler e w' else (Raise e, w')
    end.

Notation "x <- m ;; k" := (bind m (fun x => k))
  (at level 61, m at next level, right associativity).
Notation "m ;;; k" := (bind m (fun _ => k))
  (at level 61, right associativity).

(** [for x in l: s = body(x, s)]. *)
Fixpoint for_each {A S} (l : list A) (body : A -> S -> M S) (s : S) : M S :=
  match l with
  | [] => ret s
  | x :: rest => s' <- body x s ;; for_each rest body s'
  end.

Definition LF : ascii := ascii_of_nat 10.
Definition CR : ascii := ascii_of_nat 13.
Definition DQUOTE : ascii := ascii_of_nat 34.
Definition COMMA : ascii := ","%char.

Fixpoint mem_char (c : ascii) (s : string) : bool :=
  match s with
  | EmptyString => false
  | String c' rest => Ascii.eqb c c' || mem_char c rest
  end.

(** ** The csv writer behind [DataFrame.to_csv] and a csv reader *)

Module Csv.

Section Writer.

(** [lineterminator] is [os.linesep] in [to_csv].  The writer quotes a
    field (QUOTE_MINIMAL) when it holds the delimiter, the quote
    character or a character of the line terminator;
    [quote_all_newlines] is true for the csv modules that quote CR and
    LF whatever the line terminator is. *)
Variable lineterminator : string.
Variable quote_all_newlines : bool.

Definition special (c : ascii) : bool :=
  Ascii.eqb c COMMA || Ascii.eqb c DQUOTE || mem_char c lineterminator
  || (quote_all_newlines && (Ascii.eqb c CR || Ascii.eqb c LF)).

Fixpoint needs_quote (s : string) : bool :=
  match s with
  | EmptyString => false
  | String c rest => special c || needs_quote rest
  end.

(** Every quote character of a quoted field is doubled. *)
Fixpoint double_quotes (s : string) : string :=
  match s with
  | EmptyString => EmptyString
  | String c rest =>
      if Ascii.eqb c DQUOTE
      then String DQUOTE (String DQUOTE (double_quotes rest))
      else String c (double_quotes rest)
  end.

Definition write_field (s : string) : string :=
  if needs_quote s
  then String DQUOTE (double_quotes s ++ String DQUOTE EmptyString)
  else s.

Fixpoint write_fields (fields : list string) : string :=
  match fields with
  | [] => EmptyString
  | [x] => write_field x
  | x :: rest => write_field x ++ String COMMA (write_fields rest)
  end.

(** [writerow]: a row made of one empty field is written as two quote
    characters. *)
Definition writerow (fields : list string) : string :=
  match fields with
  | [EmptyString] => String DQUOTE (String DQUOTE lineterminator)
  | _ => write_fields fields ++ lineterminator
  end.

Fixpoint writerows (rows : list (list string)) : string :=
  match rows with
  | [] => EmptyString
  | r :: rest => writerow r ++ writerows rest
  end.

End Writer.

(** The reader is the state machine of [csv.reader] on a file opened with
    [newline=''], default dialect: outside quotes a record ends at LF, CR
    or CR LF; a blank line is an empty record. *)
Inductive state : Type :=
| START_RECORD
| START_FIELD
| IN_FIELD
| IN_QUOTED_FIELD
| QUOTE_IN_QUOTED_FIELD
| AFTER_CR.

Definition add_char (field : string) (c : ascii) : string :=
  field ++ String c EmptyString.

(** One character: the next state, the field and the fields of the record
    being read, and the record this character completes, if any. *)
Definition step_field (st : state) (field : string) (fields : list string)
    (c : ascii) : state * string * list string * option (list string) :=
  let end_record := Some (fields ++ [field])%list in
  let after_eol := if Ascii.eqb c CR then AFTER_CR else START_RECORD in
  let is_eol := Ascii.eqb c LF || Ascii.eqb c CR in
  match st with
  | START_FIELD =>
      if is_eol then (after_eol, EmptyString, [], end_record)
      else if Ascii.eqb c DQUOTE then (IN_QUOTED_FIELD, field, fields, None)
      else if Ascii.eqb c COMMA
      then (START_FIELD, EmptyString, (fields ++ [field])%list, None)
      else (IN_FIELD, add_char field c, fields, None)
  | IN_FIELD =>
      if is_eol then (after_eol, EmptyString, [], end_record)
      else if Ascii.eqb c COMMA
      then (START_FIELD, EmptyString, (fields ++ [field])%list, None)
      else (IN_FIELD, add_char field c, fields, None)
  | IN_QUOTED_FIELD =>
      if Ascii.eqb c DQUOTE then (QUOTE_IN_QUOTED_FIELD, field, fields, None)
      else (IN_QUOTED_FIELD, add_char field c, fields, None)
  | QUOTE_IN_QUOTED_FIELD =>
      if Ascii.eqb c DQUOTE
      then (IN_QUOTED_FIELD, add_char field c, fields, None)
      else if Ascii.eqb c COMMA
      then (START_FIELD, EmptyString, (fields ++ [field])%list, None)
      else if is_eol then (after_eol, EmptyString, [], end_record)
      else (IN_FIELD, add_char field c, fields, None)
  | START_RECORD | AFTER_CR => (st, field, fields, None)
  end.

Definition step_record (field : string) (fields : list string) (c : ascii)
  : state * string * list string * option (list string) :=
  if Ascii.eqb c LF then (START_RECORD, EmptyString, [], Some [])
  else if Ascii.eqb c CR then (AFTER_CR, EmptyString, [], Some [])
  else step_field START_FIELD field fields c.

Definition step (st : state) (field : string) (fields : list string)
    (c : ascii) : state * string * list string * option (list string) :=
  match st with
  | START_RECORD => step_record field fields c
  | AFTER_CR =>
      if Ascii.eqb c LF then (START_RECORD, EmptyString, [], None)
      else step_record field fields c
  | _ => step_field st field fields c
  end.

Fixpoint run (st : state) (field : string) (fields : list string)
    (s : string) : list (list string) :=
  match s with
  | EmptyString =>
      match st with
      | START_RECORD | AFTER_CR => []
      | _ => [(fields ++ [field])%list]
      end
  | String c rest =>
      match step st field fields c with
      | (st', field', fields', Some record) =>
          record :: run st' field' fields' rest
      | (st', field', fields', None) => run st' field' fields' rest
      end
  end.

Definition reader (contents : string) : list (list string) :=
  run START_RECORD EmptyString [] contents.

End Csv.

(** ** pandas: [DataFrame(list of dicts)] and [to_csv(path, index=False)] *)

Record DataFrame : Type := {
  columns : list string;
  values : list (list pyval)
}.

Module Pandas.

Definition add_key (cols : list string) (k : string) : list string :=
  if existsb (String.eqb k) cols then cols else (cols ++ [k])%list.

(** The columns are the keys of the records in order of first appearance;
    a key that a record lacks gives a missing value in its row. *)
Definition from_records (data : list (dict pyval)) : DataFrame :=
  let cols :=
    fold_left (fun cols r => fold_left add_key (Dict.keys r) cols) data [] in
  {| columns := cols;
     values :=
       map (fun r =>
              map (fun c => match Dict.get r c with
                            | Some v => v
                            | None => PNone
                            end) cols) data |}.

(** A cell as [to_csv] writes it: a missing value is the empty string
    ([na_rep]), a string is itself. *)
Definition cell (v : pyval) : string :=
  match v with
  | PNone => EmptyString
  | PStr s => s
  end.

(** The rows of the file: the header, then one row per record. *)
Definition rows (df : DataFrame) : list (list string) :=
  columns df :: map (map cell) (values df).

Definition to_csv_text (lineterminator : string) (quote_all_newlines : bool)
    (df : DataFrame) : string :=
  Csv.writerows lineterminator quote_all_newlines (rows df).

End Pandas.

(** ** The script *)

Section Scraper.

(** [network n url] is what the n-th request of the run gives when it asks
    for [url]: an exception of [requests], or a response. *)
Variable network : nat -> string -> request_exception + Response.

(** [random_random n] is the n-th value of [random.random()]. *)
Variable random_random : nat -> Q.

(** [html_parser markup] is the list of top-level nodes that
    [BeautifulSoup(markup, "html.parser")] builds. *)
Variable html_parser : string -> list node.

(** [os.linesep], and whether the csv module quotes every CR and LF. *)
Variable os_linesep : string.
Variable quote_all_newlines : bool.

Definition requests_get (url : string) (headers : dict string) : M Response :=
  fun w =>
    let w' := {| requests_sent := S (requests_sent w);
                 randoms_drawn := randoms_drawn w;
                 trace := trace w ++ [EvGet url headers] |} in
    match network (requests_sent w) url with
    | inl e => (Raise (RequestException e), w')
    | inr response => (Ok response, w')
    end.

(** [response.raise_for_status()]: HTTPError for the statuses 400-599. *)
Definition raise_for_status (response : Response) : M unit :=
  if ((400 <=? status_code response) && (status_code response <? 600))%Z
  then raise (RequestException (HTTPError (status_code response)))
  else ret tt.

(** [random.uniform(a, b)] is [a + (b - a) * random()]. *)
Definition random_uniform (a b : Q) : M Q :=
  fun w =>
    (Ok (a + (b - a) * random_random (randoms_drawn w))%Q,
     {| requests_sent := requests_sent w;
        randoms_drawn := S (randoms_drawn w);
        trace := trace w |}).

Definition time_sleep (seconds : Q) : M unit :=
  fun w => (Ok tt, log (EvSleep seconds) w).

(** [job_list.append(job_details)]. *)
Definition list_append (job_list : list (dict pyval))
    (job_details : dict pyval) : M (list (dict pyval)) :=
  fun w => (Ok (job_list ++ [job_details])%list, log (EvAppend job_details) w).

Definition to_csv (df : DataFrame) (path : string) : M unit :=
  fun w =>
    (Ok tt,
     log (EvToCsv path (Pandas.to_csv_text os_linesep quote_all_newlines df)) w).

Definition BeautifulSoup (markup : string) : node :=
  Tag "[document]" [] (html_parser markup).

Definition headers : dict string :=
  [("User-Agent",
    "Mozilla/5.0 (Windows NT 10.0; Win64; x64) AppleWebKit/537.36 (KHTML, like Gecko) Chrome/91.0.4472.124 Safari/537.36")].

(** Truth value of [tag.get(key)]: [None], the empty string and the empty
    list are false. *)
Definition truthy (v : option attr_value) : bool :=
  match v with
  | None => false
  | Some (AttrStr s) => negb (String.eqb s EmptyString)
  | Some (AttrList l) => match l with [] => false | _ => true end
  end.

(** [v.split(sep)]: only a [str] has the method. *)
Definition split (v : option attr_value) (sep : ascii) : M (list string) :=
  match v with
  | Some (AttrStr s) => ret (Str.split sep s)
  | _ => raise AttributeError
  end.

(** [l[i]]. *)
Definition getitem (l : list string) (i : nat) : M string :=
  match nth_error l i with
  | Some x => ret x
  | None => raise IndexError
  end.

(** The body of the loop of [get_job_ids], lines 52-60.  A [Tag] is always
    true, so [base_card_div and ...] is false only for [None]. *)
Definition extract_job_id (job : node) (id_list : list string)
  : M (list string) :=
  try_except
    (match Soup.find job "div" "base-card" with
     | Some base_card_div =>
         if truthy (Soup.get base_card_div "data-entity-urn") then
           parts <- split (Soup.get base_card_div "data-entity-urn") ":" ;;
           job_id <- getitem parts 3 ;;
           ret (id_list ++ [job_id])%list
         else ret id_list
     | None => ret id_list
     end)
    is_AttributeError_or_IndexError
    (fun _ => ret id_list).

Definition list_url (title location : string) (start : Z) : string :=
  "https://www.linkedin.com/jobs-guest/jobs/api/seeMoreJobPostings/search?keywords="
  ++ Str.quote_plus title ++ "&location=" ++ Str.quote_plus location
  ++ "&start=" ++ Str.of_Z start.

Definition get_job_ids (title location : string) (start : Z)
  : M (list string) :=
  try_except
    (response <- requests_get (list_url title location start) headers ;;
     raise_for_status response ;;;
     let list_soup := BeautifulSoup (text response) in
     let page_jobs := Soup.find_all list_soup "li" in
     for_each page_jobs extract_job_id [])
    is_RequestException
    (fun _ => ret []).

(** [elem.text]: [None] has no such attribute. *)
Definition getattr_text (elem : option node) : M string :=
  match elem with
  | Some tag => ret (Soup.text tag)
  | None => raise AttributeError
  end.

(** Truth value of the result of [find]: a [Tag] is true, [None] false. *)
Definition found (elem : option node) : bool :=
  match elem with Some _ => true | None => false end.

(** [elem.text.strip() if elem else None] for
    [elem = job_soup.find(name, {"class": class})]. *)
Definition field_value (job_soup : node) (name class : string) : M pyval :=
  let elem := Soup.find job_soup name class in
  if found elem then
    t <- getattr_text elem ;; ret (PStr (Str.strip t))
  else ret PNone.

(** One [try: ... except AttributeError: job_post[key] = None] block. *)
Definition extract_field (job_soup : node) (key name class : string)
    (job_post : dict pyval) : M (dict pyval) :=
  try_except
    (v <- field_value job_soup name class ;; ret (Dict.set job_post key v))
    is_AttributeError
    (fun _ => ret (Dict.set job_post key PNone)).

Definition job_url (job_id : string) : string :=
  "https://www.linkedin.com/jobs-guest/jobs/api/jobPosting/" ++ job_id.

Definition title_class : string :=
  "top-card-layout__title font-sans text-lg papabear:text-xl font-bold leading-open text-color-text mb-0 topcard__title".
Definition company_class : string :=
  "topcard__org-name-link topcard__flavor--black-link".
Definition time_class : string :=
  "posted-time-ago__text topcard__flavor--metadata".
Definition applicants_class : string :=
  "num-applicants__caption topcard__flavor--metadata topcard__flavor--bullet".
Definition location_class : string :=
  "topcard__flavor topcard__flavor--bullet".

Definition scrape_job_details (job_id : string) : M (dict pyval) :=
  try_except
    (job_response <- requests_get (job_url job_id) headers ;;
     raise_for_status job_response ;;;
     let job_soup := BeautifulSoup (text job_response) in
     let job_post := [("job_id", PStr job_id)] in
     job_post <- extract_field job_soup "job_title" "h2" title_class job_post ;;
     job_post <- extract_field job_soup "company_name" "a" company_class job_post ;;
     job_post <- extract_field job_soup "time_posted" "span" time_class job_post ;;
     job_post <- extract_field job_soup "num_applicants" "span" applicants_class job_post ;;
     job_post <- extract_field job_soup "location" "span" location_class job_post ;;
     ret job_post)
    is_RequestException
    (fun _ =>
       ret [("job_id", PStr job_id); ("job_title", PNone);
            ("company_name", PNone); ("time_posted", PNone);
            ("num_applicants", PNone); ("location", PNone)]).

(** The body of the loop of [main], lines 174-181. *)
Definition process_job (job_id : string) (job_list : list (dict pyval))
  : M (list (dict pyval)) :=
  job_details <- scrape_job_details job_id ;;
  job_list <- list_append job_list job_details ;;
  delay <- random_uniform 1 3 ;;
  time_sleep delay ;;;
  ret job_list.

Definition output_filename (title location : string) : string :=
  Str.replace " " "_" location ++ "_" ++ Str.replace " " "_" title
  ++ "_jobs.csv".

(** [main] for a given configuration (the three literals of lines
    152-154). *)
Definition main_with (title location : string) (start : Z) : M unit :=
  id_list <- get_job_ids title location start ;;
  match id_list with
  | [] => ret tt
  | _ =>
      job_list <- for_each id_list process_job [] ;;
      match job_list with
      | [] => ret tt
      | _ =>
          let jobs_df := Pandas.from_records job_list in
          to_csv jobs_df (output_filename title location)
      end
  end.

Definition main : M unit := main_with "Python Developer" "Toronto" 0.

End Scraper.

(** ** What the functions compute, stated without the monad *)

Definition field_names : list string :=
  ["job_id"; "job_title"; "company_name"; "time_posted"; "num_applicants";
   "location"].

(** The five extracted fields: key, tag name, class string. *)
Definition field_specs : list (string * string * string) :=
  [("job_title", "h2", title_class);
   ("company_name", "a", company_class);
   ("time_posted", "span", time_class);
   ("num_applicants", "span", applicants_class);
   ("location", "span", location_class)].

(** [raise_for_status] raises for this response. *)
Definition status_raises (response : Response) : bool :=
  ((400 <=? status_code response) && (status_code response <? 600))%Z.

(** A transport failure: [requests.get] raises, or the status is one that
    [raise_for_status] rejects. *)
Definition transport_failure (r : request_exception + Response) : bool :=
  match r with
  | inl _ => true
  | inr response => status_raises response
  end.

Definition after_get (url : string) (w : world) : world :=
  {| requests_sent := S (requests_sent w);
     randoms_drawn := randoms_drawn w;
     trace := trace w ++ [EvGet url headers] |}.

Module Listing.

(** A usable [data-entity-urn]: a non-empty string with at least four
    segments between colons. *)
Definition urn_ok (v : option attr_value) : bool :=
  match v with
  | Some (AttrStr s) =>
      negb (String.eqb s EmptyString) && (4 <=? length (Str.split ":" s))%nat
  | _ => false
  end.

Definition is_base_card (n : node) : bool := Soup.matches_tag "div" "base-card" n.


(** An entry whose FIRST div of class base-card, in document order,
    carries a usable attribute. *)
Definition valid_entry (job : node) : bool :=
  match Soup.find job "div" "base-card" with
  | Some d => urn_ok (Soup.get d "data-entity-urn")
  | None => false
  end.

(** The fourth segment of the attribute of the first base-card div. *)
Definition entry_id (job : node) : string :=
  match Soup.find job "div" "base-card" with
  | Some d =>
      match Soup.get d "data-entity-urn" with
      | Some (AttrStr s) => nth 3 (Str.split ":" s) EmptyString
      | _ => EmptyString
      end
  | None => EmptyString
  end.

Definition entries (soup : node) : list node := Soup.find_all soup "li".

Definition ids_of (soup : node) : list string :=
  map entry_id (filter valid_entry (entries soup)).

(** [get_job_ids] as a function of what the network answers. *)
Definition listing_result (html_parser : string -> list node)
  (r : request_exception + Response) : list string :=
  match r with
  | inl _ => []
  | inr response =>
      if status_raises response then []
      else ids_of (BeautifulSoup html_parser (text response))
  end.

End Listing.

Module Detail.

(** A field as the code computes it: null exactly when the element is
    absent, the stripped text of the element otherwise. *)
Definition lookup (job_soup : node) (name class : string) : pyval :=
  match Soup.find job_soup name class with
  | Some elem => PStr (Str.strip (Soup.text elem))
  | None => PNone
  end.



Definition scraped (job_id : string) (job_soup : node) : dict pyval :=
  [("job_id", PStr job_id);
   ("job_title", lookup job_soup "h2" title_class);
   ("company_name", lookup job_soup "a" company_class);
   ("time_posted", lookup job_soup "span" time_class);
   ("num_applicants", lookup job_soup "span" applicants_class);
   ("location", lookup job_soup "span" location_class)].

Definition failed (job_id : string) : dict pyval :=
  [("job_id", PStr job_id); ("job_title", PNone); ("company_name", PNone);
   ("time_posted", PNone); ("num_applicants", PNone); ("location", PNone)].

(** A cell is populated: a non-empty string. *)
Definition populated (v : option pyval) : bool :=
  match v with
  | Some (PStr s) => negb (String.eqb s EmptyString)
  | _ => false
  end.

Definition null_count (job_post : dict pyval) : nat :=
  length (filter is_none (map snd job_post)).

Section Run.

Variable network : nat -> string -> request_exception + Response.
Variable html_parser : string -> list node.

(** The record that the n-th request of the run yields for [job_id]. *)
Definition details_at (n : nat) (job_id : string) : dict pyval :=
  match network n (job_url job_id) with
  | inl _ => failed job_id
  | inr response =>
      if status_raises response then failed job_id
      else scraped job_id (BeautifulSoup html_parser (text response))
  end.

(** A detail fetch fully succeeds: the request is answered, the status
    is accepted and each of the five fields comes out populated. *)
Definition full_success (r : request_exception + Response) : bool :=
  match r with
  | inl _ => false
  | inr response =>
      negb (status_raises response) &&
      forallb (fun '(_, name, class) =>
                 populated (Some (lookup (BeautifulSoup html_parser (text response))
                                         name class)))
              field_specs
  end.

(** Every detail fetch for [ids], from the n-th request on, fully
    succeeds. *)
Fixpoint all_succeed (n : nat) (ids : list string) : bool :=
  match ids with
  | [] => true
  | job_id :: rest =>
      full_success (network n (job_url job_id)) && all_succeed (S n) rest
  end.

(** The records for a list of identifiers requested from the n-th
    request on. *)
Fixpoint details_from (n : nat) (ids : list string) : list (dict pyval) :=
  match ids with
  | [] => []
  | job_id :: rest => details_at n job_id :: details_from (S n) rest
  end.

End Run.

End Detail.

Module Loop.

Section Run.

Variable network : nat -> string -> request_exception + Response.
Variable random_random : nat -> Q.
Variable html_parser : string -> list node.

Definition delay_at (r : nat) : Q := (1 + (3 - 1) * random_random r)%Q.

(** The three actions of one iteration, in order. *)
Definition iteration (n r : nat) (job_id : string) : list event :=
  [EvGet (job_url job_id) headers;
   EvAppend (Detail.details_at network html_parser n job_id);
   EvSleep (delay_at r)].

(** The actions of the whole loop, the n-th request and the r-th random
    number being the next ones. *)
Fixpoint events (n r : nat) (ids : list string) : list event :=
  match ids with
  | [] => []
  | job_id :: rest => iteration n r job_id ++ events (S n) (S r) rest
  end.

End Run.

Definition is_to_csv (e : event) : bool :=
  match e with EvToCsv _ _ => true | _ => false end.

Definition appended (t : list event) : list (dict pyval) :=
  flat_map (fun e => match e with EvAppend d => [d] | _ => [] end) t.

End Loop.

(** The rows of the file for a list of records with the six fields. *)
Definition record_row (job_post : dict pyval) : list string :=
  map (fun k => match Dict.get job_post k with
                | Some v => Pandas.cell v
                | None => EmptyString
                end) field_names.

Definition file_rows (job_list : list (dict pyval)) : list (list string) :=
  field_names :: map record_row job_list.

Definition has_CR (s : string) : bool := mem_char CR s.

Definition LF_str : string := String LF EmptyString.
Definition CRLF_str : string := String CR (String LF EmptyString).

(** The csv writer quotes every field that holds a carriage return. *)
Definition quotes_CR (lineterminator : string) (quote_all_newlines : bool)
  : bool :=
  quote_all_newlines || mem_char CR lineterminator.

(** A character that an unquoted field may hold without ending it. *)
Definition plain_char (c : ascii) : bool :=
  negb (Ascii.eqb c COMMA || Ascii.eqb c DQUOTE || Ascii.eqb c LF
        || Ascii.eqb c CR).

Fixpoint plain (s : string) : bool :=
  match s with
  | EmptyString => true
  | String c rest => plain_char c && plain rest
  end.

(** The states in which the reader can be when a field has been read. *)
Definition field_end (st : Csv.state) : Prop :=
  st = Csv.START_FIELD \/ st = Csv.IN_FIELD \/ st = Csv.QUOTE_IN_QUOTED_FIELD.

(** The writer quotes a carriage return, or the field holds none. *)
Definition field_ok (lineterminator : string) (quote_all_newlines : bool)
    (s : string) : Prop :=
  quotes_CR lineterminator quote_all_newlines = true \/ has_CR s = false.

(** ** The script with the parser's refusal and the library's draw

    [BeautifulSoup(markup, "html.parser")] raises ParserRejectedMarkup on
    the markup that html.parser fails on, and neither fetch function nor
    [main] catches it; [random.uniform(1, 3)] computes its result in
    binary64.  The definitions above are the script on pages that the parser
    accepts, with the draw computed exactly.  The module below has both as
    the code has them: the refusal is a parameter, and so is the number that
    each call of [random.uniform] returns. *)

Module Full.

Section Script.

Variable network : nat -> string -> request_exception + Response.

(** [uniform n a b] is the number that the n-th call of [random.uniform] in
    the run returns when called with [a] and [b]: a binary64 number, held as
    the rational it is. *)
Variable uniform : nat -> Q -> Q -> Q.

(** [parser_rejects markup]: html.parser fails on this markup, so that
    [BeautifulSoup] raises ParserRejectedMarkup. *)
Variable parser_rejects : string -> bool.

(** The tree that the parser builds for a markup it accepts. *)
Variable html_parser : string -> list node.

Variable os_linesep : string.
Variable quote_all_newlines : bool.

Definition BeautifulSoup (markup : string) : M node :=
  if parser_rejects markup then raise ParserRejectedMarkup
  else ret (Tag "[document]" [] (html_parser markup)).

Definition random_uniform (a b : Q) : M Q :=
  fun w =>
    (Ok (uniform (randoms_drawn w) a b),
     {| requests_sent := requests_sent w;
        randoms_drawn := S (randoms_drawn w);
        trace := trace w |}).

Definition get_job_ids (title location : string) (start : Z)
  : M (list string) :=
  try_except
    (response <- requests_get network (list_url title location start) headers ;;
     raise_for_status response ;;;
     list_soup <- BeautifulSoup (text response) ;;
     let page_jobs := Soup.find_all list_soup "li" in
     for_each page_jobs extract_job_id [])
    is_RequestException
    (fun _ => ret []).

Definition scrape_job_details (job_id : string) : M (dict pyval) :=
  try_except
    (job_response <- requests_get network (job_url job_id) headers ;;
     raise_for_status job_response ;;;
     job_soup <- BeautifulSoup (text job_response) ;;
     let job_post := [("job_id", PStr job_id)] in
     job_post <- extract_field job_soup "job_title" "h2" title_class job_post ;;
     job_post <- extract_field job_soup "company_name" "a" company_class job_post ;;
     job_post <- extract_field job_soup "time_posted" "span" time_class job_post ;;
     job_post <- extract_field job_soup "num_applicants" "span" applicants_class job_post ;;
     job_post <- extract_field job_soup "location" "span" location_class job_post ;;
     ret job_post)
    is_RequestException
    (fun _ =>
       ret [("job_id", PStr job_id); ("job_title", PNone);
            ("company_name", PNone); ("time_posted", PNone);
            ("num_applicants", PNone); ("location", PNone)]).

(** The body of the loop of [main], lines 174-181. *)
Definition process_job (job_id : string) (job_list : list (dict pyval))
  : M (list (dict pyval)) :=
  job_details <- scrape_job_details job_id ;;
  job_list <- list_append job_list job_details ;;
  delay <- random_uniform 1 3 ;;
  time_sleep delay ;;;
  ret job_list.

Definition main_with (title location : string) (start : Z) : M unit :=
  id_list <- get_job_ids title location start ;;
  match id_list with
  | [] => ret tt
  | _ =>
      job_list <- for_each id_list process_job [] ;;
      match job_list with
      | [] => ret tt
      | _ =>
          let jobs_df := Pandas.from_records job_list in
          to_csv os_linesep quote_all_newlines jobs_df
                 (output_filename title location)
      end
  end.

Definition main : M unit := main_with "Python Developer" "Toronto" 0.

(** What a fetch function gives for an answer of the network: the handler's
    value on an exception of [requests] or a status that [raise_for_status]
    rejects, ParserRejectedMarkup on a body that the parser rejects, and the
    value [found] read off the tree otherwise. *)
Definition fetch_outcome {A} (on_failure : A) (found : node -> A)
    (r : request_exception + Response) : outcome A :=
  match r with
  | inl _ => Ok on_failure
  | inr response =>
      if status_raises response then Ok on_failure
      else if parser_rejects (text response) then Raise ParserRejectedMarkup
      else Ok (found (Tag "[document]" [] (html_parser (text response))))
  end.

(** The answer does not make the parser raise. *)
Definition accepted (r : request_exception + Response) : bool :=
  match r with
  | inl _ => true
  | inr response =>
      status_raises response || negb (parser_rejects (text response))
  end.

(** Every detail page for [ids], from the n-th request on, is accepted. *)
Fixpoint details_accepted (n : nat) (ids : list string) : bool :=
  match ids with
  | [] => true
  | job_id :: rest =>
      accepted (network n (job_url job_id)) && details_accepted (S n) rest
  end.

(** The three actions of one iteration of the loop, in order. *)
Definition iteration (n r : nat) (job_id : string) : list event :=
  [EvGet (job_url job_id) headers;
   EvAppend (Detail.details_at network html_parser n job_id);
   EvSleep (uniform r 1 3)].

Fixpoint events (n r : nat) (ids : list string) : list event :=
  match ids with
  | [] => []
  | job_id :: rest => iteration n r job_id ++ events (S n) (S r) rest
  end.

End Script.

End Full.

(** A transport failure as the transport claim words it: [requests.get]
    raises, or the status is not a success status (200-299). *)
Definition failure_in_words (r : request_exception + Response) : bool :=
  match r with
  | inl _ => true
  | inr response =>
      negb ((200 <=? status_code response) && (status_code response <? 300))%Z
  end.

(** ** Sample documents and worlds *)

Module Samples.

Definition li (contents : list node) : node := Tag "li" [] contents.

Definition card (attrs : dict attr_value) : node :=
  Tag "div" (("class", AttrList ["base-card"]) :: attrs) [].

(** [<li><div class='base-card'></div>
        <div class='base-card' data-entity-urn='urn:li:jobPosting:42'></div></li>] *)
Definition second_card_markup : string :=
  "<li><div class='base-card'></div><div class='base-card' data-entity-urn='urn:li:jobPosting:42'></div></li>".
Definition second_card : list node :=
  [li [card []; card [("data-entity-urn", AttrStr "urn:li:jobPosting:42")]]].

(** Three entries: a valid one, one with three segments only, and one
    whose attribute ends in the delimiter. *)
Definition listing_markup : string :=
  "<ul><li><div class='base-card' data-entity-urn='urn:li:jobPosting:123'></div></li><li><div class='base-card' data-entity-urn='urn:li:x'></div></li><li><div class='base-card' data-entity-urn='urn:li:jobPosting:'></div></li></ul>".
Definition listing : list node :=
  [Tag "ul" []
     [li [card [("data-entity-urn", AttrStr "urn:li:jobPosting:123")]];
      li [card [("data-entity-urn", AttrStr "urn:li:x")]];
      li [card [("data-entity-urn", AttrStr "urn:li:jobPosting:")]]]].

(** Two valid entries, 123 and 456. *)
Definition two_jobs_markup : string :=
  "<li><div class='base-card' data-entity-urn='urn:li:jobPosting:123'></div></li><li><div class='base-card' data-entity-urn='urn:li:jobPosting:456'></div></li>".
Definition two_jobs : list node :=
  [li [card [("data-entity-urn", AttrStr "urn:li:jobPosting:123")]];
   li [card [("data-entity-urn", AttrStr "urn:li:jobPosting:456")]]].

Definition classes (class : string) : dict attr_value :=
  [("class", AttrList (Str.split " " class))].

(** A detail page with the five elements, each with text. *)
Definition full_detail_markup : string :=
  "<h2 class='" ++ title_class ++ "'> Python Developer </h2>"
  ++ "<a class='" ++ company_class ++ "'>Acme</a>"
  ++ "<span class='" ++ time_class ++ "'>2 days ago</span>"
  ++ "<span class='" ++ applicants_class ++ "'>25 applicants</span>"
  ++ "<span class='" ++ location_class ++ "'>Toronto, ON</span>".
Definition full_detail : list node :=
  [Tag "h2" (classes title_class) [NavigableString " Python Developer "];
   Tag "a" (classes company_class) [NavigableString "Acme"];
   Tag "span" (classes time_class) [NavigableString "2 days ago"];
   Tag "span" (classes applicants_class) [NavigableString "25 applicants"];
   Tag "span" (classes location_class) [NavigableString "Toronto, ON"]].

(** A detail page whose title element is there but empty, and whose other
    four elements are absent. *)
Definition empty_title_markup : string :=
  "<h2 class='" ++ title_class ++ "'></h2>".
Definition empty_title : list node :=
  [Tag "h2" (classes title_class) []].

(** The parser on the sample pages. *)
Definition parser (markup : string) : list node :=
  if String.eqb markup second_card_markup then second_card
  else if String.eqb markup listing_markup then listing
  else if String.eqb markup two_jobs_markup then two_jobs
  else if String.eqb markup full_detail_markup then full_detail
  else if String.eqb markup empty_title_markup then empty_title
  else [].

Definition ok (markup : string) : request_exception + Response :=
  inr {| status_code := 200; text := markup |}.

(** Every request is answered by the same page. *)
Definition serve (markup : string) (n : nat) (url : string)
  : request_exception + Response := ok markup.

(** The listing request gets the two-job page, every later one the full
    detail page. *)
Definition two_jobs_site (n : nat) (url : string)
  : request_exception + Response :=
  match n with
  | O => ok two_jobs_markup
  | _ => ok full_detail_markup
  end.

(** The listing request gets the two-job page; the first detail request
    fails with status 404 and the second cannot connect. *)
Definition failing_site (n : nat) (url : string)
  : request_exception + Response :=
  match n with
  | O => ok two_jobs_markup
  | S O => inr {| status_code := 404; text := "Not Found" |}
  | _ => inl ConnectionError
  end.

(** No connection at all. *)
Definition offline (n : nat) (url : string) : request_exception + Response :=
  inl ConnectionError.

Definition half (n : nat) : Q := (1 # 2)%Q.

(** A record whose title holds a bare carriage return. *)
Definition cr_record : dict pyval :=
  [("job_id", PStr "123");
   ("job_title", PStr (String "a" (String CR "b")));
   ("company_name", PNone); ("time_posted", PNone);
   ("num_applicants", PNone); ("location", PNone)].

(** A record with a comma, a quote character and a line feed in its
    fields. *)
Definition tricky_record : dict pyval :=
  [("job_id", PStr "456");
   ("job_title", PStr "Developer, Python");
   ("company_name", PStr (String DQUOTE ("Acme" ++ String DQUOTE " Inc")));
   ("time_posted", PStr (String "2" (String LF "days")));
   ("num_applicants", PNone); ("location", PStr "")].

End Samples.

(** ** Further sample pages *)

Module Cases.

(** A detail page like [Samples.full_detail] whose title holds a bare
    carriage return. *)
Definition cr_title_markup : string :=
  "<h2 class='" ++ title_class ++ "'>a" ++ String CR "b</h2>"
  ++ "<a class='" ++ company_class ++ "'>Acme</a>"
  ++ "<span class='" ++ time_class ++ "'>2 days ago</span>"
  ++ "<span class='" ++ applicants_class ++ "'>25 applicants</span>"
  ++ "<span class='" ++ location_class ++ "'>Toronto</span>".
Definition cr_title : list node :=
  [Tag "h2" (Samples.classes title_class)
     [NavigableString (String "a" (String CR "b"))];
   Tag "a" (Samples.classes company_class) [NavigableString "Acme"];
   Tag "span" (Samples.classes time_class) [NavigableString "2 days ago"];
   Tag "span" (Samples.classes applicants_class)
     [NavigableString "25 applicants"];
   Tag "span" (Samples.classes location_class) [NavigableString "Toronto"]].

(** A body that html.parser fails on. *)
Definition rejected_markup : string := "<![x y]>".

Definition parser (markup : string) : list node :=
  if String.eqb markup cr_title_markup then cr_title
  else Samples.parser markup.

Definition rejects (markup : string) : bool :=
  String.eqb markup rejected_markup.

Definition accepts_all (markup : string) : bool := false.

(** The listing gives 123 and 456; both detail pages have the title with
    the carriage return. *)
Definition cr_site (n : nat) (url : string) : request_exception + Response :=
  match n with
  | O => Samples.ok Samples.two_jobs_markup
  | _ => Samples.ok cr_title_markup
  end.

(** The listing gives 123 and 456; the first detail page is complete, the
    second is one that the parser rejects. *)
Definition rejected_site (n : nat) (url : string)
  : request_exception + Response :=
  match n with
  | O => Samples.ok Samples.two_jobs_markup
  | S O => Samples.ok Samples.full_detail_markup
  | _ => Samples.ok rejected_markup
  end.

(** Every request is answered with status 999 and the given body. *)
Definition denied (markup : string) (n : nat) (url : string)
  : request_exception + Response :=
  inr {| status_code := 999; text := markup |}.

(** Every call of [random.uniform] returns 2. *)
Definition two_seconds (n : nat) (a b : Q) : Q := 2%Q.

End Cases.

(** ** Notions for the further properties *)

Fixpoint count_char (c : ascii) (s : string) : nat :=
  match s with
  | EmptyString => 0
  | String c' rest => (if Ascii.eqb c c' then 1 else 0) + count_char c rest
  end.

Fixpoint all_chars (p : ascii -> bool) (s : string) : bool :=
  match s with
  | EmptyString => true
  | String c rest => p c && all_chars p rest
  end.

(** The characters that [quote_plus] can put out. *)
Definition url_safe (c : ascii) : bool :=
  Str.is_unreserved c || Ascii.eqb c "+"%char || Ascii.eqb c "%"%char.

Definition starts_with_space (s : string) : bool :=
  match s with
  | EmptyString => false
  | String c _ => Str.is_ascii_space c
  end.

Definition ends_with_space (s : string) : bool :=
  starts_with_space (Str.rev s).

(** The five keys that [scrape_job_details] fills from the page. *)
Definition extracted_keys : list string :=
  ["job_title"; "company_name"; "time_posted"; "num_applicants"; "location"].

(** The GET requests of a trace: URL and headers, in order. *)
Definition gets (t : list event) : list (string * dict string) :=
  flat_map (fun e => match e with EvGet url h => [(url, h)] | _ => [] end) t.

(** The seconds slept in a trace. *)
Fixpoint total_sleep (t : list event) : Q :=
  match t with
  | [] => 0%Q
  | EvSleep d :: rest => (d + total_sleep rest)%Q
  | _ :: rest => total_sleep rest
  end.

(** A record in which every null is replaced by the empty string. *)
Definition blank_nulls (job_post : dict pyval) : dict pyval :=
  map (fun kv => (fst kv, match snd kv with
                          | PNone => PStr EmptyString
                          | v => v
                          end)) job_post.


(** The summary that [main] prints, lines 198-202: [len(jobs_df)] and
    [jobs_df[name].notna().sum()].  Selecting a column that the frame lacks
    raises KeyError, here [None]. *)
Module Summary.

Definition len (df : DataFrame) : nat := length (values df).

Fixpoint index_of (name : string) (cols : list string) : option nat :=
  match cols with
  | [] => None
  | c :: rest =>
      if String.eqb c name then Some 0
      else option_map S (index_of name rest)
  end.

(** [df[name]]. *)
Definition column (df : DataFrame) (name : string) : option (list pyval) :=
  match index_of name (columns df) with
  | Some i => Some (map (fun row => nth i row PNone) (values df))
  | None => None
  end.

(** [notna()]: everything but a missing value, the empty string included. *)
Definition notna (v : pyval) : bool := negb (is_none v).

Definition notna_sum (df : DataFrame) (name : string) : option nat :=
  option_map (fun col => length (filter notna col)) (column df name).

(** A record counts for a key when it holds a string there. *)
Definition has_value (key : string) (job_post : dict pyval) : bool :=
  match Dict.get job_post key with
  | Some (PStr _) => true
  | _ => false
  end.

End Summary.

(** ** The model on concrete inputs *)

Example split_urn :
  Str.split ":" "urn:li:jobPosting:3812345678"
  = ["urn"; "li"; "jobPosting"; "3812345678"].
Proof. reflexivity. Qed.

Example split_trailing_colon :
  Str.split ":" "urn:li:jobPosting:" = ["urn"; "li"; "jobPosting"; ""].
Proof. reflexivity. Qed.

Example strip_unicode_space :
  Str.strip (String (Str.byte 194) (String (Str.byte 160) "  Data Engineer  "))
  = "Data Engineer".
Proof. reflexivity. Qed.

Example list_url_config :
  list_url "Python Developer" "Toronto" 0
  = "https://www.linkedin.com/jobs-guest/jobs/api/seeMoreJobPostings/search?keywords=Python+Developer&location=Toronto&start=0".
Proof. reflexivity. Qed.

Example output_filename_config :
  output_filename "Python Developer" "Toronto"
  = "Toronto_Python_Developer_jobs.csv".
Proof. reflexivity. Qed.

Example class_list_matches_one_item :
  Soup.matches (Some (AttrList ["base-card"; "relative"; "w-full"])) "base-card"
  = true.
Proof. reflexivity. Qed.

Example class_string_matches_joined_list :
  Soup.matches (Some (AttrList ["topcard__flavor"; "topcard__flavor--bullet"]))
    location_class = true
  /\ Soup.matches (Some (AttrList ["topcard__flavor--bullet"; "topcard__flavor"]))
       location_class = false.
Proof. split; reflexivity. Qed.

(** With LF as terminator the writer leaves a bare CR unquoted; with CR LF it
    quotes it. *)
Example writerow_LF :
  Csv.writerow LF_str false
    [String "a" (String CR "b"); "c,d"; String "g" (String LF "h"); ""; " x "]
  = String "a" (String CR "b,")
    ++ String DQUOTE "c,d" ++ String DQUOTE ","
    ++ String DQUOTE (String "g" (String LF "h")) ++ String DQUOTE ",, x "
    ++ LF_str.
Proof. reflexivity. Qed.

Example writerow_CRLF :
  Csv.writerow CRLF_str false [String "a" (String CR "b"); "c"]
  = String DQUOTE (String "a" (String CR "b")) ++ String DQUOTE ",c"
    ++ CRLF_str.
Proof. reflexivity. Qed.

Example reader_rows :
  Csv.reader
    (String "a" (String CR "b,") ++ String DQUOTE "c,d" ++ String DQUOTE ","
     ++ String DQUOTE ("e" ++ String DQUOTE (String DQUOTE "f"))
     ++ String DQUOTE LF_str ++ ",," ++ LF_str)
  = [["a"]; ["b"; "c,d"; String "e" (String DQUOTE "f")]; [""; ""; ""]].
Proof. reflexivity. Qed.

Example main_offline :
  main Samples.offline Samples.half Samples.parser LF_str false initial_world
  = (Ok tt,
     {| requests_sent := 1; randoms_drawn := 0;
        trace := [EvGet (list_url "Python Developer" "Toronto" 0) headers] |}).
Proof. reflexivity. Qed.

(** ** Running the monad *)

Section ListingFacts.

Variable network : nat -> string -> request_exception + Response.
Variable html_parser : string -> list node.

Lemma extract_job_id_run (job : node) (id_list : list string) (w : world) :
  extract_job_id job id_list w =
  (Ok (if Listing.valid_entry job
       then (id_list ++ [Listing.entry_id job])%list else id_list), w).
Proof.
  unfold extract_job_id, Listing.valid_entry, Listing.entry_id, try_except.
  destruct (Soup.find job "div" "base-card") as [d|]; [|reflexivity].
  destruct (Soup.get d "data-entity-urn") as [[s|l]|]; simpl.
  - destruct (String.eqb s EmptyString); simpl; [reflexivity|].
    unfold bind, ret, getitem; simpl.
    destruct (Str.split ":" s) as [|a [|b [|c [|x rest]]]]; reflexivity.
  - destruct l; reflexivity.
  - reflexivity.
Qed.

Lemma for_each_extract (jobs : list node) (id_list : list string) (w : world) :
  for_each jobs extract_job_id id_list w =
  (Ok (id_list ++ map Listing.entry_id (filter Listing.valid_entry jobs))%list, w).
Proof.
  revert id_list; induction jobs as [|job jobs IH]; intros id_list; simpl.
  - unfold ret. now rewrite app_nil_r.
  - unfold bind. rewrite extract_job_id_run.
    destruct (Listing.valid_entry job); rewrite IH; simpl.
    + now rewrite <- app_assoc.
    + reflexivity.
Qed.

Lemma get_job_ids_run (title location : string) (start : Z) (w : world) :
  get_job_ids network html_parser title location start w =
  (Ok (Listing.listing_result html_parser (network (requests_sent w) (list_url title location start))),
   after_get (list_url title location start) w).
Proof.
  unfold get_job_ids, try_except, bind at 1, requests_get, Listing.listing_result.
  destruct (network (requests_sent w) (list_url title location start))
    as [e|response]; [reflexivity|].
  unfold bind, raise_for_status, status_raises.
  destruct ((400 <=? status_code response) && (status_code response <? 600))%Z;
    [reflexivity|].
  unfold ret at 1. rewrite for_each_extract. reflexivity.
Qed.

End ListingFacts.

Section DetailFacts.

Variable network : nat -> string -> request_exception + Response.
Variable html_parser : string -> list node.

Lemma field_value_run (job_soup : node) (name class : string) (w : world) :
  field_value job_soup name class w =
  (Ok (Detail.lookup job_soup name class), w).
Proof.
  unfold field_value, Detail.lookup.
  destruct (Soup.find job_soup name class) as [elem|]; reflexivity.
Qed.

Lemma extract_field_run (job_soup : node) (key name class : string)
    (job_post : dict pyval) (w : world) :
  extract_field job_soup key name class job_post w =
  (Ok (Dict.set job_post key (Detail.lookup job_soup name class)), w).
Proof.
  unfold extract_field, try_except, bind.
  now rewrite field_value_run.
Qed.

Lemma scrape_job_details_run (job_id : string) (w : world) :
  scrape_job_details network html_parser job_id w =
  (Ok (Detail.details_at network html_parser (requests_sent w) job_id),
   after_get (job_url job_id) w).
Proof.
  unfold scrape_job_details, try_except, bind at 1, requests_get,
    Detail.details_at.
  destruct (network (requests_sent w) (job_url job_id)) as [e|response];
    [reflexivity|].
  unfold bind at 1, raise_for_status, status_raises.
  destruct ((400 <=? status_code response) && (status_code response <? 600))%Z;
    [reflexivity|].
  unfold ret at 1, bind.
  repeat rewrite extract_field_run.
  reflexivity.
Qed.

End DetailFacts.

Section LoopFacts.

Variable network : nat -> string -> request_exception + Response.
Variable random_random : nat -> Q.
Variable html_parser : string -> list node.

Lemma process_job_run (job_id : string) (job_list : list (dict pyval))
    (w : world) :
  process_job network random_random html_parser job_id job_list w =
  (Ok (job_list ++ [Detail.details_at network html_parser (requests_sent w) job_id])%list,
   {| requests_sent := S (requests_sent w);
      randoms_drawn := S (randoms_drawn w);
      trace := trace w ++
               Loop.iteration network random_random html_parser
                 (requests_sent w) (randoms_drawn w) job_id |}).
Proof.
  unfold process_job, bind. rewrite scrape_job_details_run.
  unfold list_append, random_uniform, time_sleep, ret, log, after_get,
    Loop.iteration, Loop.delay_at; simpl.
  repeat rewrite <- app_assoc. reflexivity.
Qed.

Lemma for_each_process_job (ids : list string) (job_list : list (dict pyval))
    (w : world) :
  for_each ids (process_job network random_random html_parser) job_list w =
  (Ok (job_list ++ Detail.details_from network html_parser (requests_sent w) ids)%list,
   {| requests_sent := requests_sent w + length ids;
      randoms_drawn := randoms_drawn w + length ids;
      trace := trace w ++
               Loop.events network random_random html_parser
                 (requests_sent w) (randoms_drawn w) ids |}).
Proof.
  revert job_list w; induction ids as [|job_id ids IH]; intros job_list w.
  - simpl. unfold ret. rewrite !Nat.add_0_r, !app_nil_r. now destruct w.
  - simpl. unfold bind. rewrite process_job_run, IH. simpl.
    rewrite <- !app_assoc, !Nat.add_succ_r. reflexivity.
Qed.

End LoopFacts.

(** ** The data frame of the records *)

Lemma details_at_keys network html_parser (n : nat) (job_id : string) :
  Dict.keys (Detail.details_at network html_parser n job_id) = field_names.
Proof.
  unfold Detail.details_at.
  destruct (network n (job_url job_id)) as [e|response]; [reflexivity|].
  destruct (status_raises response); reflexivity.
Qed.

Lemma details_at_job_id network html_parser (n : nat) (job_id : string) :
  Dict.get (Detail.details_at network html_parser n job_id) "job_id"
  = Some (PStr job_id).
Proof.
  unfold Detail.details_at.
  destruct (network n (job_url job_id)) as [e|response]; [reflexivity|].
  destruct (status_raises response); reflexivity.
Qed.

Lemma details_from_keys network html_parser (ids : list string) (n : nat) :
  Forall (fun r => Dict.keys r = field_names)
         (Detail.details_from network html_parser n ids).
Proof.
  revert n; induction ids as [|job_id ids IH]; intros n; simpl; constructor.
  - apply details_at_keys.
  - apply IH.
Qed.

Lemma details_from_length network html_parser (ids : list string) (n : nat) :
  length (Detail.details_from network html_parser n ids) = length ids.
Proof.
  revert n; induction ids as [|job_id ids IH]; intros n; simpl; [reflexivity|].
  now rewrite IH.
Qed.

Lemma details_from_job_ids network html_parser (ids : list string) (n : nat) :
  Forall2 (fun job_id r => Dict.get r "job_id" = Some (PStr job_id))
          ids (Detail.details_from network html_parser n ids).
Proof.
  revert n; induction ids as [|job_id ids IH]; intros n; simpl; constructor.
  - apply details_at_job_id.
  - apply IH.
Qed.

Lemma columns_stable (data : list (dict pyval)) :
  Forall (fun r => Dict.keys r = field_names) data ->
  fold_left (fun cols r => fold_left Pandas.add_key (Dict.keys r) cols)
            data field_names = field_names.
Proof.
  induction 1 as [|r data Hr _ IH]; simpl; [reflexivity|].
  rewrite Hr. exact IH.
Qed.

Lemma from_records_columns (data : list (dict pyval)) :
  data <> [] ->
  Forall (fun r => Dict.keys r = field_names) data ->
  columns (Pandas.from_records data) = field_names.
Proof.
  intros Hne Hkeys. destruct data as [|r data]; [congruence|].
  inversion Hkeys as [|? ? Hr Hrest]; subst.
  unfold Pandas.from_records; cbn [columns fold_left].
  rewrite Hr. apply (columns_stable data Hrest).
Qed.

Lemma from_records_values (data : list (dict pyval)) :
  values (Pandas.from_records data) =
  map (fun r => map (fun c => match Dict.get r c with
                              | Some v => v
                              | None => PNone
                              end) (columns (Pandas.from_records data))) data.
Proof. reflexivity. Qed.

Lemma from_records_rows (data : list (dict pyval)) :
  data <> [] ->
  Forall (fun r => Dict.keys r = field_names) data ->
  Pandas.rows (Pandas.from_records data) = file_rows data.
Proof.
  intros Hne Hkeys. unfold Pandas.rows, file_rows.
  rewrite from_records_values, (from_records_columns data Hne Hkeys).
  f_equal. rewrite map_map.
  apply map_ext. intros r. unfold record_row.
  rewrite map_map. apply map_ext. intros k.
  destruct (Dict.get r k); reflexivity.
Qed.

Section MainFacts.

Variable network : nat -> string -> request_exception + Response.
Variable random_random : nat -> Q.
Variable html_parser : string -> list node.
Variable os_linesep : string.
Variable quote_all_newlines : bool.

Lemma main_with_run (title location : string) (start : Z) (w : world) :
  main_with network random_random html_parser os_linesep quote_all_newlines
            title location start w =
  (Ok tt,
   let url := list_url title location start in
   let ids := Listing.listing_result html_parser (network (requests_sent w) url) in
   let job_list :=
     Detail.details_from network html_parser (S (requests_sent w)) ids in
   match ids with
   | [] => after_get url w
   | _ =>
       {| requests_sent := S (requests_sent w) + length ids;
          randoms_drawn := randoms_drawn w + length ids;
          trace :=
            (trace w ++ [EvGet url headers]) ++
            Loop.events network random_random html_parser
              (S (requests_sent w)) (randoms_drawn w) ids ++
            [EvToCsv (output_filename title location)
               (Csv.writerows os_linesep quote_all_newlines
                  (file_rows job_list))] |}
   end).
Proof.
  unfold main_with, bind at 1. rewrite get_job_ids_run.
  destruct (Listing.listing_result html_parser
              (network (requests_sent w) (list_url title location start)))
    as [|job_id ids] eqn:Hids; [reflexivity|].
  unfold bind. rewrite for_each_process_job.
  cbn [app]. 
  change (requests_sent (after_get (list_url title location start) w))
    with (S (requests_sent w)).
  change (randoms_drawn (after_get (list_url title location start) w))
    with (randoms_drawn w).
  change (trace (after_get (list_url title location start) w))
    with (trace w ++ [EvGet (list_url title location start) headers])%list.
  pose proof (details_from_keys network html_parser (job_id :: ids)
                (S (requests_sent w))) as Hkeys.
  destruct (Detail.details_from network html_parser (S (requests_sent w))
              (job_id :: ids)) as [|r job_list] eqn:Hjobs; [discriminate|].
  unfold to_csv, log, Pandas.to_csv_text.
  rewrite from_records_rows by (congruence || assumption).
  cbn [requests_sent randoms_drawn trace].
  rewrite <- !app_assoc. reflexivity.
Qed.

End MainFacts.

(** ** The listing fetcher *)




(** C9.  A list item whose base-card attribute has an empty fourth segment
    (an attribute that ends in the delimiter, say) puts the empty string in
    the sequence that [get_job_ids] returns: identifiers are not checked to
    be non-empty. *)
Theorem get_job_ids_keeps_empty_id :
  forall network html_parser title location start w response job d s,
    network (requests_sent w) (list_url title location start) = inr response ->
    status_raises response = false ->
    In job (Listing.entries (BeautifulSoup html_parser (text response))) ->
    Soup.find job "div" "base-card" = Some d ->
    Soup.get d "data-entity-urn" = Some (AttrStr s) ->
    nth_error (Str.split ":" s) 3 = Some EmptyString ->
    exists ids,
      fst (get_job_ids network html_parser title location start w) = Ok ids
      /\ In EmptyString ids.
Proof.
  intros network html_parser title location start w response job d s
    Hnet Hstatus Hin Hfind Hget Hnth.
  rewrite get_job_ids_run, Hnet. unfold Listing.listing_result.
  rewrite Hstatus. cbn [fst]. eexists; split; [reflexivity|].
  unfold Listing.ids_of.
  assert (Hvalid : Listing.valid_entry job = true).
  { unfold Listing.valid_entry, Listing.urn_ok. rewrite Hfind, Hget.
    destruct s as [|c s]; [discriminate|]. simpl negb.
    destruct (Str.split ":" (String c s)) as [|a [|b [|c' [|x rest]]]];
      try discriminate. reflexivity. }
  assert (Hid : Listing.entry_id job = EmptyString).
  { unfold Listing.entry_id. rewrite Hfind, Hget.
    destruct (Str.split ":" s) as [|a [|b [|c' [|x rest]]]];
      try discriminate. now inversion Hnth. }
  rewrite <- Hid. apply in_map. apply filter_In. now split.
Qed.

Lemma get_job_ids_keeps_empty_id_witness :
  exists ids,
    fst (get_job_ids (Samples.serve Samples.listing_markup) Samples.parser
           "Python Developer" "Toronto" 0 initial_world) = Ok ids
    /\ In EmptyString ids.
Proof.
  apply (get_job_ids_keeps_empty_id
           (Samples.serve Samples.listing_markup) Samples.parser
           "Python Developer" "Toronto" 0%Z initial_world
           {| status_code := 200; text := Samples.listing_markup |}
           (Samples.li [Samples.card [("data-entity-urn", AttrStr "urn:li:jobPosting:")]])
           (Samples.card [("data-entity-urn", AttrStr "urn:li:jobPosting:")])
           "urn:li:jobPosting:").
  - reflexivity.
  - reflexivity.
  - vm_compute. right; right; left. reflexivity.
  - reflexivity.
  - reflexivity.
  - reflexivity.
Defined.

(** ** The detail fetcher *)




(** C10.  In [scrape_job_details] no per-field handler can run: the guarded
    expression never raises, whatever the page, so each try block gives what
    the guarded expression gives and the handler is dead code. *)
Theorem attribute_error_handlers_unreachable :
  forall job_soup key name class job_post w,
    (exists v, field_value job_soup name class w = (Ok v, w))
    /\ (forall handler,
          try_except
            (v <- field_value job_soup name class ;;
             ret (Dict.set job_post key v))
            is_AttributeError handler w
          = (v <- field_value job_soup name class ;;
             ret (Dict.set job_post key v)) w)
    /\ extract_field job_soup key name class job_post w
       = (v <- field_value job_soup name class ;;
          ret (Dict.set job_post key v)) w.
Proof.
  intros job_soup key name class job_post w.
  split; [eexists; apply field_value_run|].
  split; [intros handler|]; unfold extract_field, try_except, bind;
    rewrite field_value_run; reflexivity.
Qed.

(** ** The orchestrator *)

Section EventFacts.

Variable network : nat -> string -> request_exception + Response.
Variable random_random : nat -> Q.
Variable html_parser : string -> list node.


Lemma events_appended (ids : list string) (n r : nat) :
  Loop.appended (Loop.events network random_random html_parser n r ids)
  = Detail.details_from network html_parser n ids.
Proof.
  revert n r; induction ids as [|job_id ids IH]; intros n r; simpl;
    [reflexivity|].
  f_equal. apply IH.
Qed.

End EventFacts.

Lemma appended_app (a b : list event) :
  Loop.appended (a ++ b) = (Loop.appended a ++ Loop.appended b)%list.
Proof. apply flat_map_app. Qed.

Lemma get_job_ids_result network html_parser title location start w ids :
  fst (get_job_ids network html_parser title location start w) = Ok ids ->
  Listing.listing_result html_parser
    (network (requests_sent w) (list_url title location start)) = ids.
Proof.
  rewrite get_job_ids_run. cbn [fst]. now intros [= ->].
Qed.


(** C5.  When the listing fetch yields no identifier, [main] ends at once:
    the only action of the run is the listing request, and no file is
    written. *)
Theorem main_no_ids_no_file :
  forall network random_random html_parser os_linesep quote_all_newlines
         title location start w,
    fst (get_job_ids network html_parser title location start w) = Ok [] ->
    exists w',
      main_with network random_random html_parser os_linesep
                quote_all_newlines title location start w = (Ok tt, w')
      /\ trace w' = (trace w ++ [EvGet (list_url title location start) headers])%list
      /\ filter Loop.is_to_csv (trace w') = filter Loop.is_to_csv (trace w).
Proof.
  intros network random_random html_parser os_linesep quote_all_newlines
    title location start w Hids.
  apply get_job_ids_result in Hids.
  rewrite main_with_run. cbv zeta. rewrite Hids.
  eexists. split; [reflexivity|]. split; [reflexivity|].
  unfold after_get; cbn [trace]. rewrite filter_app. cbn [filter Loop.is_to_csv].
  apply app_nil_r.
Qed.

Lemma main_no_ids_no_file_witness :
  exists w',
    main Samples.offline Samples.half Samples.parser LF_str false initial_world
    = (Ok tt, w')
    /\ filter Loop.is_to_csv (trace w') = [].
Proof.
  destruct (main_no_ids_no_file Samples.offline Samples.half Samples.parser
              LF_str false "Python Developer" "Toronto" 0%Z initial_world
              eq_refl) as [w' [Hrun [_ Hfile]]].
  exists w'. split; [exact Hrun | exact Hfile].
Defined.

Lemma populated_cell (v : pyval) :
  Detail.populated (Some v) = true -> Pandas.cell v <> EmptyString.
Proof.
  destruct v as [|s]; simpl; [discriminate|].
  intros H ->. discriminate.
Qed.

Lemma record_row_length (job_post : dict pyval) :
  length (record_row job_post) = 6.
Proof. reflexivity. Qed.

Lemma all_succeed_populated network html_parser (ids : list string) (n : nat) :
  Forall (fun job_id => job_id <> EmptyString) ids ->
  Detail.all_succeed network html_parser n ids = true ->
  Forall (Forall (fun c => c <> EmptyString))
         (map record_row (Detail.details_from network html_parser n ids)).
Proof.
  revert n; induction ids as [|job_id ids IH]; intros n Hids Hall; simpl;
    constructor.
  - inversion Hids as [|? ? Hid _]; subst.
    simpl in Hall. apply andb_true_iff in Hall. destruct Hall as [Hfull _].
    unfold Detail.full_success, Detail.details_at in *.
    destruct (network n (job_url job_id)) as [e|response]; [discriminate|].
    apply andb_true_iff in Hfull. destruct Hfull as [Hstatus Hfields].
    apply negb_true_iff in Hstatus. rewrite Hstatus.
    cbn [forallb field_specs] in Hfields.
    repeat (apply andb_true_iff in Hfields;
            let H := fresh "Hf" in destruct Hfields as [H Hfields]).
    unfold record_row, field_names, Detail.scraped. cbn [map Dict.get String.eqb Ascii.eqb Bool.eqb].
    repeat (constructor; [first [exact Hid | now apply populated_cell]|]).
    constructor.
  - inversion Hids; subst. simpl in Hall. apply andb_true_iff in Hall.
    apply IH; tauto.
Qed.

(** ** The csv round trip *)

Lemma append_assoc (a b c : string) : (a ++ b) ++ c = a ++ (b ++ c).
Proof. induction a as [|x a IH]; simpl; [reflexivity|now rewrite IH]. Qed.

Lemma append_nil_r (a : string) : a ++ EmptyString = a.
Proof. induction a as [|x a IH]; simpl; [reflexivity|now rewrite IH]. Qed.

Section RoundTrip.

Variable lineterminator : string.
Variable quote_all_newlines : bool.
Hypothesis linesep_cases : lineterminator = LF_str \/ lineterminator = CRLF_str.


Lemma unquoted_plain (s : string) :
  (field_ok lineterminator quote_all_newlines) s ->
  Csv.needs_quote lineterminator quote_all_newlines s = false ->
  plain s = true.
Proof.
  intros Hok. induction s as [|c s IH]; simpl; [reflexivity|].
  intros Hq. apply orb_false_iff in Hq. destruct Hq as [Hc Hs].
  assert (Hok' : (field_ok lineterminator quote_all_newlines) s).
  { destruct Hok as [H|H]; [now left|right].
    unfold has_CR in *. simpl in H. apply orb_false_iff in H. tauto. }
  rewrite (IH Hok' Hs), andb_true_r.
  unfold Csv.special in Hc. unfold plain_char.
  repeat (apply orb_false_iff in Hc; destruct Hc as [Hc ?]).
  rewrite Hc, H1. simpl.
  assert (HLF : Ascii.eqb c LF = false).
  { destruct linesep_cases as [-> | ->]; simpl in H0;
      repeat (apply orb_false_iff in H0; destruct H0 as [? H0]); assumption. }
  rewrite HLF. simpl.
  destruct (Ascii.eqb c CR) eqn:HCR; [|reflexivity].
  apply Ascii.eqb_eq in HCR. subst c. exfalso.
  destruct Hok as [H2|H2].
  - unfold quotes_CR in H2. apply orb_true_iff in H2. destruct H2 as [-> | H2].
    + discriminate.
    + destruct linesep_cases as [-> | ->]; discriminate.
  - unfold has_CR in H2. simpl in H2. discriminate.
Qed.

Lemma run_plain (s : string) :
  plain s = true ->
  forall acc fields rest,
    Csv.run Csv.IN_FIELD acc fields (s ++ rest)
    = Csv.run Csv.IN_FIELD (acc ++ s) fields rest.
Proof.
  induction s as [|c s IH]; intros Hp acc fields rest.
  - now rewrite append_nil_r.
  - simpl in Hp. apply andb_true_iff in Hp. destruct Hp as [Hc Hs].
    unfold plain_char in Hc. apply negb_true_iff in Hc.
    repeat (apply orb_false_iff in Hc; destruct Hc as [Hc ?]).
    simpl. rewrite H0, H, Hc. simpl.
    rewrite (IH Hs). unfold Csv.add_char. now rewrite append_assoc.
Qed.

Lemma run_quoted (s : string) :
  forall acc fields rest,
    Csv.run Csv.IN_QUOTED_FIELD acc fields
      (Csv.double_quotes s ++ String DQUOTE rest)
    = Csv.run Csv.QUOTE_IN_QUOTED_FIELD (acc ++ s) fields rest.
Proof.
  induction s as [|c s IH]; intros acc fields rest.
  - now rewrite append_nil_r.
  - simpl. destruct (Ascii.eqb c DQUOTE) eqn:Hc.
    + apply Ascii.eqb_eq in Hc. subst c. simpl.
      rewrite IH. unfold Csv.add_char. now rewrite append_assoc.
    + simpl. rewrite Hc. rewrite IH. unfold Csv.add_char.
      now rewrite append_assoc.
Qed.

(** Reading a written field from the start of a field leaves the reader
    at the end of that field, with the field as it was. *)
Lemma run_field (s : string) (fields : list string) :
  (field_ok lineterminator quote_all_newlines) s ->
  exists st,
    field_end st /\
    forall rest,
      Csv.run Csv.START_FIELD EmptyString fields
        (Csv.write_field lineterminator quote_all_newlines s ++ rest)
      = Csv.run st s fields rest.
Proof.
  intros Hok. unfold Csv.write_field.
  destruct (Csv.needs_quote lineterminator quote_all_newlines s) eqn:Hq.
  - exists Csv.QUOTE_IN_QUOTED_FIELD. split; [right; right; reflexivity|].
    intros rest. simpl. rewrite append_assoc. simpl.
    now rewrite run_quoted.
  - pose proof (unquoted_plain s Hok Hq) as Hp.
    destruct s as [|c s].
    + exists Csv.START_FIELD. split; [left; reflexivity|]. reflexivity.
    + exists Csv.IN_FIELD. split; [right; left; reflexivity|].
      intros rest. simpl in Hp. apply andb_true_iff in Hp.
      destruct Hp as [Hc Hs].
      unfold plain_char in Hc. apply negb_true_iff in Hc.
      repeat (apply orb_false_iff in Hc; destruct Hc as [Hc ?]).
      simpl. rewrite H0, H, H1, Hc. simpl.
      now rewrite (run_plain s Hs).
Qed.

Lemma run_comma (st : Csv.state) (field : string) (fields : list string)
    (rest : string) :
  field_end st ->
  Csv.run st field fields (String COMMA rest)
  = Csv.run Csv.START_FIELD EmptyString (fields ++ [field]) rest.
Proof. intros [-> | [-> | ->]]; reflexivity. Qed.

Lemma run_eol (st : Csv.state) (field : string) (fields : list string)
    (rest : string) :
  field_end st ->
  Csv.run st field fields (lineterminator ++ rest)
  = (fields ++ [field])%list :: Csv.run Csv.START_RECORD EmptyString [] rest.
Proof.
  intros Hst.
  destruct linesep_cases as [-> | ->]; destruct Hst as [-> | [-> | ->]];
    reflexivity.
Qed.

Lemma run_fields (row : list string) :
  row <> [] ->
  Forall (field_ok lineterminator quote_all_newlines) row ->
  forall fields rest,
    Csv.run Csv.START_FIELD EmptyString fields
      (Csv.write_fields lineterminator quote_all_newlines row
       ++ lineterminator ++ rest)
    = (fields ++ row)%list :: Csv.run Csv.START_RECORD EmptyString [] rest.
Proof.
  induction row as [|x row IH]; intros Hne Hok fields rest; [congruence|].
  inversion Hok as [|? ? Hx Hrow]; subst.
  destruct (run_field x fields Hx) as [st [Hst Hrun]].
  destruct row as [|y row].
  - simpl. rewrite Hrun. now apply run_eol.
  - change (Csv.write_fields lineterminator quote_all_newlines (x :: y :: row))
      with (Csv.write_field lineterminator quote_all_newlines x ++
            String COMMA
              (Csv.write_fields lineterminator quote_all_newlines (y :: row))).
    rewrite append_assoc. rewrite Hrun. simpl append.
    rewrite (run_comma st x fields _ Hst).
    rewrite IH by (assumption || discriminate).
    now rewrite <- app_assoc.
Qed.

Lemma run_record_as_field (c : ascii) (rest : string) :
  Ascii.eqb c LF = false ->
  Ascii.eqb c CR = false ->
  Csv.run Csv.START_RECORD EmptyString [] (String c rest)
  = Csv.run Csv.START_FIELD EmptyString [] (String c rest).
Proof.
  intros HLF HCR. cbn [Csv.run Csv.step]. unfold Csv.step_record.
  now rewrite HLF, HCR.
Qed.

Lemma run_row (row : list string) (rest : string) :
  Forall (field_ok lineterminator quote_all_newlines) row ->
  Csv.run Csv.START_RECORD EmptyString []
    (Csv.writerow lineterminator quote_all_newlines row ++ rest)
  = row :: Csv.run Csv.START_RECORD EmptyString [] rest.
Proof.
  intros Hok. destruct row as [|x row].
  - simpl. destruct linesep_cases as [-> | ->]; reflexivity.
  - assert (Hgen :
      Csv.run Csv.START_RECORD EmptyString []
        (Csv.write_fields lineterminator quote_all_newlines (x :: row)
         ++ lineterminator ++ rest)
      = Csv.run Csv.START_FIELD EmptyString []
          (Csv.write_fields lineterminator quote_all_newlines (x :: row)
           ++ lineterminator ++ rest) ->
      Csv.run Csv.START_RECORD EmptyString []
        ((Csv.write_fields lineterminator quote_all_newlines (x :: row)
          ++ lineterminator) ++ rest)
      = (x :: row) :: Csv.run Csv.START_RECORD EmptyString [] rest).
    { intros H. rewrite append_assoc, H.
      now rewrite run_fields by (assumption || discriminate). }
    inversion Hok as [|? ? Hx Hrow]; subst.
    destruct x as [|c x].
    + destruct row as [|y row].
      * simpl. destruct linesep_cases as [-> | ->]; reflexivity.
      * apply Hgen. reflexivity.
    + unfold Csv.writerow. apply Hgen.
      assert (Hfirst : exists c' tail,
        Csv.write_fields lineterminator quote_all_newlines (String c x :: row)
        ++ lineterminator ++ rest = String c' tail
        /\ Ascii.eqb c' LF = false /\ Ascii.eqb c' CR = false).
      { assert (Hw : exists c' tail,
          Csv.write_field lineterminator quote_all_newlines (String c x)
          = String c' tail
          /\ Ascii.eqb c' LF = false /\ Ascii.eqb c' CR = false).
        { unfold Csv.write_field.
          destruct (Csv.needs_quote lineterminator quote_all_newlines
                      (String c x)) eqn:Hq.
          - eexists _, _. split; [reflexivity|]. split; reflexivity.
          - pose proof (unquoted_plain _ Hx Hq) as Hp. simpl in Hp.
            apply andb_true_iff in Hp. destruct Hp as [Hc _].
            unfold plain_char in Hc. apply negb_true_iff in Hc.
            repeat (apply orb_false_iff in Hc; destruct Hc as [Hc ?]).
            eexists _, _. split; [reflexivity|]. split; assumption. }
        destruct Hw as [c' [tail [Hw [H1 H2]]]].
        destruct row as [|y row]; simpl; rewrite Hw; simpl;
          eexists _, _; (split; [reflexivity|]); split; assumption. }
      destruct Hfirst as [c' [tail [-> [H1 H2]]]].
      now apply run_record_as_field.
Qed.

Lemma reader_writerows (rows : list (list string)) :
  Forall (Forall (field_ok lineterminator quote_all_newlines)) rows ->
  Csv.reader (Csv.writerows lineterminator quote_all_newlines rows) = rows.
Proof.
  unfold Csv.reader. induction 1 as [|row rows Hrow _ IH]; simpl;
    [reflexivity|].
  rewrite run_row by assumption. now rewrite IH.
Qed.

End RoundTrip.

(** C7, as amended.  Let the line terminator be LF or CR LF, and let the csv
    writer quote carriage returns (the line terminator is CR LF, or the csv
    module quotes CR and LF whatever the terminator is) or let no column name
    and no field hold a carriage return.  Then for every sequence of N
    records, reading back the text that [to_csv] writes gives the header row
    and exactly N data rows, whose cells are the string values of the
    records, a null being the empty cell; for records with the six fields
    the header is the six field names and each row is the record's fields in
    declaration order. *)
Theorem to_csv_round_trip :
  forall lineterminator quote_all_newlines data,
    lineterminator = LF_str \/ lineterminator = CRLF_str ->
    quotes_CR lineterminator quote_all_newlines = true
    \/ Forall (Forall (fun c => has_CR c = false))
              (Pandas.rows (Pandas.from_records data)) ->
    let df := Pandas.from_records data in
    Csv.reader (Pandas.to_csv_text lineterminator quote_all_newlines df)
    = columns df :: map (map Pandas.cell) (values df)
    /\ length (map (map Pandas.cell) (values df)) = length data
    /\ (data <> [] ->
        Forall (fun r => Dict.keys r = field_names) data ->
        columns df = field_names
        /\ map (map Pandas.cell) (values df) = map record_row data).
Proof.
  intros lineterminator quote_all_newlines data Hlt Hcr df.
  split.
  - unfold Pandas.to_csv_text.
    rewrite (reader_writerows lineterminator quote_all_newlines Hlt).
    + reflexivity.
    + destruct Hcr as [Hq|Hfree].
      * apply Forall_forall. intros row _. apply Forall_forall. intros c _.
        now left.
      * eapply Forall_impl; [|exact Hfree]. intros row Hrow.
        eapply Forall_impl; [|exact Hrow]. intros c Hc. now right.
  - split.
    + unfold df. rewrite from_records_values. now rewrite !length_map.
    + intros Hne Hkeys.
      pose proof (from_records_rows data Hne Hkeys) as Hrows.
      unfold Pandas.rows, file_rows in Hrows. fold df in Hrows.
      now injection Hrows.
Qed.

Lemma to_csv_round_trip_witness :
  Csv.reader
    (Pandas.to_csv_text LF_str false
       (Pandas.from_records [Detail.failed "123"; Samples.tricky_record]))
  = [field_names;
     ["123"; ""; ""; ""; ""; ""];
     record_row Samples.tricky_record].
Proof.
  apply (to_csv_round_trip LF_str false
           [Detail.failed "123"; Samples.tricky_record]).
  - left. reflexivity.
  - right. vm_compute. repeat constructor.
Defined.

(** C7, as stated, fails: with LF as line terminator and a csv writer that
    quotes only what the terminator holds, a title with a bare carriage
    return is written unquoted, and reading the file back gives two data
    rows for the one record. *)
Lemma to_csv_bare_CR_splits_row :
  let df := Pandas.from_records [Samples.cr_record] in
  length (values df) = 1
  /\ Csv.reader (Pandas.to_csv_text LF_str false df)
     = [field_names; ["123"; "a"]; ["b"; ""; ""; ""; ""]]
  /\ Csv.reader (Pandas.to_csv_text LF_str false df) <> Pandas.rows df.
Proof.
  split; [reflexivity|]. split; [reflexivity|].
  vm_compute. discriminate.
Qed.

(** ** Further properties: the listing URL and the file name *)

Lemma count_char_app (c : ascii) (a b : string) :
  count_char c (a ++ b) = count_char c a + count_char c b.
Proof.
  induction a as [|x a IH]; simpl; [reflexivity|]. rewrite IH. lia.
Qed.

Lemma mem_char_app (c : ascii) (a b : string) :
  mem_char c (a ++ b) = mem_char c a || mem_char c b.
Proof.
  induction a as [|x a IH]; simpl; [reflexivity|].
  rewrite IH. now rewrite orb_assoc.
Qed.

Lemma all_chars_app (p : ascii -> bool) (a b : string) :
  all_chars p (a ++ b) = all_chars p a && all_chars p b.
Proof.
  induction a as [|x a IH]; simpl; [reflexivity|].
  rewrite IH. now rewrite andb_assoc.
Qed.

Lemma all_chars_count (p : ascii -> bool) (c : ascii) (s : string) :
  p c = false -> all_chars p s = true -> count_char c s = 0.
Proof.
  intros Hc. induction s as [|x s IH]; simpl; [reflexivity|].
  intros H. apply andb_true_iff in H. destruct H as [Hx Hs].
  destruct (Ascii.eqb c x) eqn:E.
  - apply Ascii.eqb_eq in E. subst x. congruence.
  - now rewrite (IH Hs).
Qed.

Lemma hex_digit_unreserved (k : nat) :
  k < 16 -> Str.is_unreserved (Str.hex_digit k) = true.
Proof.
  intros Hk.
  do 16 (destruct k as [|k]; [reflexivity|]). lia.
Qed.

Lemma nat_of_ascii_bound (c : ascii) : nat_of_ascii c < 256.
Proof.
  destruct c as [[|] [|] [|] [|] [|] [|] [|] [|]]; vm_compute; lia.
Qed.

Lemma quote_plus_safe (s : string) :
  all_chars url_safe (Str.quote_plus s) = true.
Proof.
  induction s as [|c s IH]; [reflexivity|].
  cbn [Str.quote_plus].
  destruct (Str.is_unreserved c) eqn:Hu.
  - cbn [all_chars]. unfold url_safe at 1. now rewrite Hu, IH.
  - destruct (Ascii.eqb c " "%char).
    + cbn [all_chars]. now rewrite IH.
    + cbv zeta. cbn [all_chars]. rewrite IH.
      pose proof (nat_of_ascii_bound c) as Hb.
      unfold url_safe at 2 3.
      rewrite !hex_digit_unreserved.
      * reflexivity.
      * apply Nat.mod_upper_bound. lia.
      * apply Nat.Div0.div_lt_upper_bound. lia.
Qed.

Lemma string_of_uint_safe (d : Decimal.uint) :
  all_chars url_safe (NilEmpty.string_of_uint d) = true.
Proof.
  induction d; simpl; try assumption; reflexivity.
Qed.

Lemma of_Z_safe (n : Z) : all_chars url_safe (Str.of_Z n) = true.
Proof.
  unfold Str.of_Z, NilZero.string_of_int.
  destruct (Z.to_int n) as [d|d]; unfold NilZero.string_of_uint.
  - destruct d; try apply string_of_uint_safe; reflexivity.
  - cbn [all_chars]. destruct d; try (rewrite string_of_uint_safe); reflexivity.
Qed.

Lemma list_url_count (c : ascii) (title location : string) (start : Z) :
  url_safe c = false ->
  count_char c (list_url title location start)
  = count_char c (list_url EmptyString EmptyString 0) - count_char c "0".
Proof.
  intros Hc. unfold list_url. rewrite !count_char_app.
  rewrite (all_chars_count url_safe c _ Hc (quote_plus_safe title)),
          (all_chars_count url_safe c _ Hc (quote_plus_safe location)),
          (all_chars_count url_safe c _ Hc (of_Z_safe start)).
  change (Str.quote_plus EmptyString) with EmptyString.
  change (Str.of_Z 0) with "0".
  cbn [count_char append]. lia.
Qed.

(** The listing URL has its three query parameters and no more, whatever
    the title and the location hold: its only [&] are the two separators,
    its only [=] the three of the parameters, and it has no space and no
    [#].  (Lines 29-33.) *)
Theorem list_url_well_formed :
  forall title location start,
    let url := list_url title location start in
    count_char "&" url = 2
    /\ count_char "=" url = 3
    /\ count_char "?" url = 1
    /\ count_char " " url = 0
    /\ count_char "#" url = 0.
Proof.
  intros title location start url. unfold url.
  repeat split; rewrite list_url_count by reflexivity; reflexivity.
Qed.

Lemma replace_removes (old new : ascii) (s : string) :
  Ascii.eqb old new = false ->
  mem_char old (Str.replace old new s) = false.
Proof.
  intros Hne. induction s as [|c s IH]; simpl; [reflexivity|].
  rewrite IH, orb_false_r.
  destruct (Ascii.eqb c old) eqn:E; [exact Hne|].
  now rewrite Ascii.eqb_sym.
Qed.

Lemma replace_length (old new : ascii) (s : string) :
  String.length (Str.replace old new s) = String.length s.
Proof.
  induction s as [|c s IH]; simpl; [reflexivity|now rewrite IH].
Qed.

Lemma length_append (a b : string) :
  String.length (a ++ b) = String.length a + String.length b.
Proof.
  induction a as [|x a IH]; simpl; [reflexivity|now rewrite IH].
Qed.

Lemma replace_keeps (old new c : ascii) (s : string) :
  Ascii.eqb c old = false -> Ascii.eqb c new = false ->
  count_char c (Str.replace old new s) = count_char c s.
Proof.
  intros Ho Hn. induction s as [|x s IH]; simpl; [reflexivity|].
  rewrite IH. destruct (Ascii.eqb x old) eqn:E.
  - apply Ascii.eqb_eq in E. subst x. now rewrite Hn, Ho.
  - reflexivity.
Qed.

(** The name of the output file never holds a space and always ends in
    [_jobs.csv]; only spaces are replaced, so a path separator in the title
    or the location stays in the name.  (Line 155.) *)
Theorem output_filename_shape :
  forall title location,
    mem_char " " (output_filename title location) = false
    /\ (exists stem,
          output_filename title location = stem ++ "_jobs.csv"
          /\ String.length stem
             = String.length location + 1 + String.length title)
    /\ count_char "/" (output_filename title location)
       = count_char "/" location + count_char "/" title.
Proof.
  intros title location. unfold output_filename. split; [|split].
  - rewrite !mem_char_app, !replace_removes by reflexivity. reflexivity.
  - exists (Str.replace " " "_" location ++ "_" ++ Str.replace " " "_" title).
    split.
    + now rewrite !append_assoc.
    + rewrite !length_append, !replace_length. simpl. lia.
  - rewrite !count_char_app, !replace_keeps by reflexivity. simpl. lia.
Qed.

(** ** Further properties: the identifiers of a listing *)

Lemma split_no_sep (sep : ascii) (s x : string) :
  In x (Str.split sep s) -> mem_char sep x = false.
Proof.
  revert x; induction s as [|c s IH]; intros x Hin; simpl in Hin.
  - destruct Hin as [<-|[]]. reflexivity.
  - destruct (Ascii.eqb c sep) eqn:E.
    + destruct Hin as [<-|Hin]; [reflexivity|now apply IH].
    + destruct (Str.split sep s) as [|y ys].
      * destruct Hin as [<-|[]]. simpl. rewrite Ascii.eqb_sym, E. reflexivity.
      * destruct Hin as [<-|Hin].
        -- simpl. rewrite Ascii.eqb_sym, E. simpl. apply IH. now left.
        -- apply IH. now right.
Qed.

Lemma entry_id_no_colon (job : node) :
  mem_char ":" (Listing.entry_id job) = false.
Proof.
  unfold Listing.entry_id.
  destruct (Soup.find job "div" "base-card") as [d|]; [|reflexivity].
  destruct (Soup.get d "data-entity-urn") as [[s|l]|]; try reflexivity.
  destruct (nth_in_or_default 3 (Str.split ":" s) EmptyString) as [Hin| ->];
    [|reflexivity].
  now apply (split_no_sep ":"%char s).
Qed.



Lemma ids_of_app (name : string) (attrs : dict attr_value) (a b : list node) :
  Listing.ids_of (Tag name attrs (a ++ b))
  = (Listing.ids_of (Tag name attrs a) ++ Listing.ids_of (Tag name attrs b))%list.
Proof.
  unfold Listing.ids_of, Listing.entries, Soup.find_all. cbn [Soup.descendants].
  now rewrite flat_map_app, filter_app, filter_app, map_app.
Qed.

(** The identifiers of a page are those of its parts, one after the other:
    nothing is merged or removed, so an entry that occurs twice gives its
    identifier twice.  (Lines 50-57.) *)
Theorem get_job_ids_concatenates :
  forall network html_parser title location start w response a b,
    network (requests_sent w) (list_url title location start) = inr response ->
    status_raises response = false ->
    html_parser (text response) = (a ++ b)%list ->
    fst (get_job_ids network html_parser title location start w)
    = Ok (Listing.ids_of (Tag "[document]" [] a)
          ++ Listing.ids_of (Tag "[document]" [] b))%list.
Proof.
  intros network html_parser title location start w response a b
    Hnet Hstatus Hparse.
  rewrite get_job_ids_run, Hnet. cbn [fst]. unfold Listing.listing_result.
  rewrite Hstatus. unfold BeautifulSoup. rewrite Hparse.
  now rewrite ids_of_app.
Qed.

Lemma get_job_ids_concatenates_witness :
  fst (get_job_ids (Samples.serve Samples.two_jobs_markup)
         (fun _ => Samples.two_jobs ++ Samples.two_jobs)%list
         "Python Developer" "Toronto" 0 initial_world)
  = Ok ["123"; "456"; "123"; "456"].
Proof.
  exact (get_job_ids_concatenates
           (Samples.serve Samples.two_jobs_markup)
           (fun _ => Samples.two_jobs ++ Samples.two_jobs)%list
           "Python Developer" "Toronto" 0%Z initial_world
           {| status_code := 200; text := Samples.two_jobs_markup |}
           Samples.two_jobs Samples.two_jobs eq_refl eq_refl eq_refl).
Defined.

Lemma find_through_item (attrs : dict attr_value) (inner : node) :
  Soup.has_name "li" inner = true ->
  Soup.find (Tag "li" attrs [inner]) "div" "base-card"
  = Soup.find inner "div" "base-card".
Proof.
  intros Hli. unfold Soup.find. cbn [Soup.descendants flat_map].
  rewrite app_nil_r. cbn [List.find].
  assert (Hm : Soup.matches_tag "div" "base-card" inner = false).
  { unfold Soup.matches_tag. destruct inner as [s|s|name a c]; try discriminate.
    simpl in Hli. apply String.eqb_eq in Hli. subst name. reflexivity. }
  now rewrite Hm.
Qed.

(** A list item nested in a list item (what the parser builds when the
    first is not closed) is scanned twice, once from each: when the inner
    item is a valid entry, its identifier comes out twice in a row.
    (Lines 47-57.) *)
Theorem nested_item_repeats_id :
  forall network html_parser title location start w response attrs inner,
    network (requests_sent w) (list_url title location start) = inr response ->
    status_raises response = false ->
    html_parser (text response) = [Tag "li" attrs [inner]] ->
    Soup.has_name "li" inner = true ->
    Listing.valid_entry inner = true ->
    exists rest,
      fst (get_job_ids network html_parser title location start w)
      = Ok (Listing.entry_id inner :: Listing.entry_id inner :: rest).
Proof.
  intros network html_parser title location start w response attrs inner
    Hnet Hstatus Hparse Hli Hvalid.
  rewrite get_job_ids_run, Hnet. cbn [fst]. unfold Listing.listing_result.
  rewrite Hstatus. unfold BeautifulSoup. rewrite Hparse.
  unfold Listing.ids_of, Listing.entries, Soup.find_all.
  cbn [Soup.descendants flat_map]. rewrite !app_nil_r.
  cbn [filter Soup.has_name String.eqb Ascii.eqb Bool.eqb].
  rewrite Hli.
  assert (Houter : Listing.valid_entry (Tag "li" attrs [inner]) = true).
  { unfold Listing.valid_entry in *. now rewrite find_through_item. }
  assert (Hid : Listing.entry_id (Tag "li" attrs [inner])
                = Listing.entry_id inner).
  { unfold Listing.entry_id. now rewrite find_through_item. }
  cbn [filter]. rewrite Houter, Hvalid. cbn [map]. rewrite Hid.
  eexists. reflexivity.
Qed.

Lemma nested_item_repeats_id_witness :
  exists rest,
    fst (get_job_ids (Samples.serve "<li><li><div class='base-card' data-entity-urn='urn:li:jobPosting:123'></div>")
           (fun _ => [Samples.li
                        [Samples.li
                           [Samples.card
                              [("data-entity-urn",
                                AttrStr "urn:li:jobPosting:123")]]]])
           "Python Developer" "Toronto" 0 initial_world)
    = Ok ("123" :: "123" :: rest).
Proof.
  exact (nested_item_repeats_id
           (Samples.serve "<li><li><div class='base-card' data-entity-urn='urn:li:jobPosting:123'></div>")
           (fun _ => [Samples.li
                        [Samples.li
                           [Samples.card
                              [("data-entity-urn",
                                AttrStr "urn:li:jobPosting:123")]]]])
           "Python Developer" "Toronto" 0%Z initial_world
           {| status_code := 200;
              text := "<li><li><div class='base-card' data-entity-urn='urn:li:jobPosting:123'></div>" |}
           [] _ eq_refl eq_refl eq_refl eq_refl eq_refl).
Defined.

(** ** Further properties: the record of a posting *)

Lemma get_set_same {V} (d : dict V) (k : string) (v : V) :
  Dict.get (Dict.set d k v) k = Some v.
Proof.
  induction d as [|[k' v'] d IH]; simpl.
  - now rewrite String.eqb_refl.
  - destruct (String.eqb k' k) eqn:E; simpl; rewrite E; [reflexivity|exact IH].
Qed.

Lemma get_set_other {V} (d : dict V) (k k' : string) (v : V) :
  k' <> k -> Dict.get (Dict.set d k v) k' = Dict.get d k'.
Proof.
  intros Hne. induction d as [|[k0 v0] d IH]; simpl.
  - apply String.eqb_neq in Hne. rewrite String.eqb_sym in Hne. now rewrite Hne.
  - destruct (String.eqb k0 k) eqn:E; simpl.
    + apply String.eqb_eq in E. subst k0.
      apply String.eqb_neq in Hne. rewrite String.eqb_sym in Hne.
      now rewrite Hne.
    + destruct (String.eqb k0 k'); [reflexivity|exact IH].
Qed.

Lemma keys_set {V} (d : dict V) (k : string) (v : V) :
  Dict.keys (Dict.set d k v)
  = if existsb (String.eqb k) (Dict.keys d) then Dict.keys d
    else (Dict.keys d ++ [k])%list.
Proof.
  unfold Dict.keys. induction d as [|[k' v'] d IH]; simpl; [reflexivity|].
  rewrite (String.eqb_sym k k').
  destruct (String.eqb k' k); simpl; [reflexivity|].
  rewrite IH. now destruct (existsb (String.eqb k) (map fst d)).
Qed.

(** One field block of [scrape_job_details] touches its own key only: it
    never raises and leaves the world as it is; every other key of the
    record keeps its value; the key itself gets the value looked up, stored
    in place when the record has the key already and at the end otherwise.
    (Lines 95-137.) *)
Theorem extract_field_frame :
  forall job_soup key name class job_post w,
  exists job_post',
    extract_field job_soup key name class job_post w = (Ok job_post', w)
    /\ Dict.get job_post' key = Some (Detail.lookup job_soup name class)
    /\ (forall other, other <> key ->
          Dict.get job_post' other = Dict.get job_post other)
    /\ Dict.keys job_post'
       = if existsb (String.eqb key) (Dict.keys job_post)
         then Dict.keys job_post
         else (Dict.keys job_post ++ [key])%list.
Proof.
  intros job_soup key name class job_post w.
  rewrite extract_field_run. eexists. split; [reflexivity|].
  split; [apply get_set_same|].
  split; [intros other Hne; now apply get_set_other|apply keys_set].
Qed.

Lemma extract_field_frame_witness :
  exists job_post',
    extract_field (BeautifulSoup Samples.parser Samples.empty_title_markup)
      "job_title" "h2" title_class
      [("job_id", PStr "123"); ("job_title", PNone)] initial_world
    = (Ok job_post', initial_world)
    /\ Dict.get job_post' "job_id" = Some (PStr "123")
    /\ Dict.keys job_post' = ["job_id"; "job_title"].
Proof.
  destruct (extract_field_frame
              (BeautifulSoup Samples.parser Samples.empty_title_markup)
              "job_title" "h2" title_class
              [("job_id", PStr "123"); ("job_title", PNone)] initial_world)
    as [job_post' [Hrun [_ [Hother Hkeys]]]].
  exists job_post'. split; [exact Hrun|]. split.
  - rewrite Hother by discriminate. reflexivity.
  - exact Hkeys.
Defined.

Lemma lstrip_no_space_aux (n : nat) :
  forall s, String.length s <= n -> starts_with_space (Str.lstrip s) = false.
Proof.
  induction n as [|n IH]; intros s Hlen.
  - destruct s; [reflexivity|simpl in Hlen; lia].
  - destruct s as [|a r1]; [reflexivity|]. simpl in Hlen.
    cbn [Str.lstrip]. destruct (Str.is_ascii_space a) eqn:Ha.
    + apply IH. lia.
    + destruct r1 as [|b r2]; [simpl; exact Ha|]. simpl in Hlen.
      destruct (Str.is_space2 a b).
      * apply IH. lia.
      * destruct r2 as [|c r3]; [simpl; exact Ha|]. simpl in Hlen.
        destruct (Str.is_space3 a b c); [apply IH; lia|simpl; exact Ha].
Qed.

Lemma lstrip_rev_no_space_aux (n : nat) :
  forall s, String.length s <= n -> starts_with_space (Str.lstrip_rev s) = false.
Proof.
  induction n as [|n IH]; intros s Hlen.
  - destruct s; [reflexivity|simpl in Hlen; lia].
  - destruct s as [|a r1]; [reflexivity|]. simpl in Hlen.
    cbn [Str.lstrip_rev]. destruct (Str.is_ascii_space a) eqn:Ha.
    + apply IH. lia.
    + destruct r1 as [|b r2]; [simpl; exact Ha|]. simpl in Hlen.
      destruct (Str.is_space2 b a).
      * apply IH. lia.
      * destruct r2 as [|c r3]; [simpl; exact Ha|]. simpl in Hlen.
        destruct (Str.is_space3 c b a); [apply IH; lia|simpl; exact Ha].
Qed.

Lemma lstrip_rev_suffix_aux (n : nat) :
  forall s, String.length s <= n -> exists p, s = p ++ Str.lstrip_rev s.
Proof.
  induction n as [|n IH]; intros s Hlen.
  - destruct s; [now exists EmptyString|simpl in Hlen; lia].
  - destruct s as [|a r1]; [now exists EmptyString|]. simpl in Hlen.
    cbn [Str.lstrip_rev]. destruct (Str.is_ascii_space a).
    + destruct (IH r1 ltac:(lia)) as [p Hp].
      exists (String a p). simpl. now rewrite <- Hp.
    + destruct r1 as [|b r2]; [now exists EmptyString|]. simpl in Hlen.
      destruct (Str.is_space2 b a).
      * destruct (IH r2 ltac:(lia)) as [p Hp].
        exists (String a (String b p)). simpl. now rewrite <- Hp.
      * destruct r2 as [|c r3]; [now exists EmptyString|]. simpl in Hlen.
        destruct (Str.is_space3 c b a); [|now exists EmptyString].
        destruct (IH r3 ltac:(lia)) as [p Hp].
        exists (String a (String b (String c p))). simpl. now rewrite <- Hp.
Qed.

Lemma rev_onto_app (s acc : string) :
  Str.rev_onto s acc = Str.rev s ++ acc.
Proof.
  unfold Str.rev. revert acc; induction s as [|c s IH]; intros acc; simpl;
    [reflexivity|].
  rewrite IH, (IH (String c EmptyString)), append_assoc. reflexivity.
Qed.

Lemma rev_app (a b : string) : Str.rev (a ++ b) = Str.rev b ++ Str.rev a.
Proof.
  induction a as [|c a IH]; simpl.
  - now rewrite append_nil_r.
  - unfold Str.rev in *. simpl. rewrite !(rev_onto_app _ (String c _)).
    unfold Str.rev. rewrite IH. now rewrite append_assoc.
Qed.

Lemma rev_involutive (s : string) : Str.rev (Str.rev s) = s.
Proof.
  induction s as [|c s IH]; [reflexivity|].
  unfold Str.rev at 2. simpl. rewrite rev_onto_app, rev_app, IH. reflexivity.
Qed.

Lemma strip_no_space (s : string) :
  starts_with_space (Str.strip s) = false
  /\ ends_with_space (Str.strip s) = false.
Proof.
  unfold Str.strip, Str.rstrip, ends_with_space. split.
  - pose proof (lstrip_no_space_aux _ s (Nat.le_refl _)) as Hl.
    destruct (lstrip_rev_suffix_aux _ (Str.rev (Str.lstrip s)) (Nat.le_refl _))
      as [p Hp].
    assert (Ht : Str.lstrip s
                 = Str.rev (Str.lstrip_rev (Str.rev (Str.lstrip s)))
                   ++ Str.rev p).
    { rewrite <- rev_app, <- Hp. now rewrite rev_involutive. }
    destruct (Str.rev (Str.lstrip_rev (Str.rev (Str.lstrip s)))) as [|c r];
      [reflexivity|].
    rewrite Ht in Hl. exact Hl.
  - rewrite rev_involutive. apply (lstrip_rev_no_space_aux _ _ (Nat.le_refl _)).
Qed.

(** Every extracted field of a record that [scrape_job_details] returns is
    stripped: a string under one of the five extracted keys neither begins
    nor ends with a space, a tab, a line feed or a carriage return; the
    identifier is stored as given.  (Lines 99-135.) *)
Theorem extracted_fields_are_stripped :
  forall network html_parser job_id w job_post key v,
    fst (scrape_job_details network html_parser job_id w) = Ok job_post ->
    In key extracted_keys ->
    Dict.get job_post key = Some (PStr v) ->
    starts_with_space v = false /\ ends_with_space v = false.
Proof.
  intros network html_parser job_id w job_post key v Hrun Hkey Hget.
  rewrite scrape_job_details_run in Hrun. cbn [fst] in Hrun.
  injection Hrun as <-. unfold Detail.details_at in Hget.
  assert (Hlookup : forall soup name class,
            Detail.lookup soup name class = PStr v ->
            starts_with_space v = false /\ ends_with_space v = false).
  { intros soup name class. unfold Detail.lookup.
    destruct (Soup.find soup name class); [|discriminate].
    intros [= <-]. apply strip_no_space. }
  destruct (network (requests_sent w) (job_url job_id)) as [e|response].
  - simpl in Hkey.
    repeat (destruct Hkey as [<-|Hkey]; [discriminate|]). destruct Hkey.
  - destruct (status_raises response).
    + simpl in Hkey.
      repeat (destruct Hkey as [<-|Hkey]; [discriminate|]). destruct Hkey.
    + simpl in Hkey.
      repeat (destruct Hkey as [<-|Hkey];
              [simpl in Hget; injection Hget as Hget;
               exact (Hlookup _ _ _ Hget)|]).
      destruct Hkey.
Qed.

Lemma extracted_fields_are_stripped_witness :
  starts_with_space "Python Developer" = false
  /\ ends_with_space "Python Developer" = false.
Proof.
  apply (extracted_fields_are_stripped
           (Samples.serve Samples.full_detail_markup) Samples.parser "123"
           initial_world
           (Detail.scraped "123"
              (BeautifulSoup Samples.parser Samples.full_detail_markup))
           "job_title" "Python Developer").
  - reflexivity.
  - left. reflexivity.
  - reflexivity.
Defined.

(** ** Further properties: how elements are matched by class *)

Lemma join_two_has_space (x y : string) (rest : list string) :
  mem_char " " (Str.join " " (x :: y :: rest)) = true.
Proof.
  change (Str.join " " (x :: y :: rest))
    with (x ++ " " ++ Str.join " " (y :: rest)).
  rewrite !mem_char_app. simpl. now rewrite orb_true_r.
Qed.

Lemma matches_class_list_exact (cls : string) (l : list string) :
  mem_char " " cls = true ->
  Forall (fun item => mem_char " " item = false) l ->
  Soup.matches (Some (AttrList l)) cls = String.eqb (Str.join " " l) cls.
Proof.
  intros Hcls Hl. unfold Soup.matches.
  replace (existsb (fun item => String.eqb item cls) l) with false;
    [reflexivity|].
  symmetry. induction Hl as [|item l Hitem _ IH]; [reflexivity|].
  simpl. rewrite IH, orb_false_r.
  apply String.eqb_neq. intros ->. congruence.
Qed.

Lemma matches_class_list_member (cls : string) (l : list string) :
  mem_char " " cls = false ->
  cls <> EmptyString ->
  Soup.matches (Some (AttrList l)) cls
  = existsb (fun item => String.eqb item cls) l.
Proof.
  intros Hcls Hne. unfold Soup.matches.
  destruct (String.eqb (Str.join " " l) cls) eqn:E;
    [|now rewrite orb_false_r].
  apply String.eqb_eq in E.
  destruct l as [|x [|y rest]].
  - simpl in E. congruence.
  - simpl in E. subst x. simpl. now rewrite String.eqb_refl.
  - rewrite <- E, join_two_has_space in Hcls. discriminate.
Qed.

(** Each of the five detail fields is found only in an element whose class
    attribute is, token for token and in the same order, the class string
    of the code: an element with one more class, one less, or the same
    classes in another order is not matched.  (Lines 96-134.) *)
Theorem detail_elements_match_exact_classes :
  forall key name cls name' attrs contents l,
    In (key, name, cls) field_specs ->
    Dict.get attrs "class" = Some (AttrList l) ->
    Forall (fun item => mem_char " " item = false) l ->
    Soup.matches_tag name cls (Tag name' attrs contents)
    = String.eqb name' name && String.eqb (Str.join " " l) cls.
Proof.
  intros key name cls name' attrs contents l Hspec Hclass Hl.
  unfold Soup.matches_tag. cbn [Soup.has_name Soup.get]. rewrite Hclass.
  rewrite matches_class_list_exact; [reflexivity| |exact Hl].
  simpl in Hspec.
  repeat (destruct Hspec as [[= <- <- <-]|Hspec]; [reflexivity|]).
  destruct Hspec.
Qed.

Lemma detail_elements_match_exact_classes_witness :
  Soup.matches_tag "span" location_class
    (Tag "span"
       [("class", AttrList ["topcard__flavor"; "topcard__flavor--bullet";
                            "extra"])] [])
  = false.
Proof.
  rewrite (detail_elements_match_exact_classes
             "location" "span" location_class "span"
             [("class", AttrList ["topcard__flavor"; "topcard__flavor--bullet";
                                  "extra"])] []
             ["topcard__flavor"; "topcard__flavor--bullet"; "extra"]).
  - reflexivity.
  - simpl. tauto.
  - reflexivity.
  - repeat constructor.
Defined.

(** A listing card is any div that has [base-card] among its classes,
    whatever other classes it has and in whatever order.  (Line 53.) *)
Theorem base_card_matches_any_class_list :
  forall name' attrs contents l,
    Dict.get attrs "class" = Some (AttrList l) ->
    Listing.is_base_card (Tag name' attrs contents)
    = String.eqb name' "div"
      && existsb (fun item => String.eqb item "base-card") l.
Proof.
  intros name' attrs contents l Hclass.
  unfold Listing.is_base_card, Soup.matches_tag.
  cbn [Soup.has_name Soup.get]. rewrite Hclass.
  rewrite matches_class_list_member; [reflexivity|reflexivity|discriminate].
Qed.

Lemma base_card_matches_any_class_list_witness :
  Listing.is_base_card
    (Tag "div" [("class", AttrList ["relative"; "base-card"; "w-full"])] [])
  = true.
Proof.
  rewrite (base_card_matches_any_class_list "div"
             [("class", AttrList ["relative"; "base-card"; "w-full"])] []
             ["relative"; "base-card"; "w-full"] eq_refl).
  reflexivity.
Defined.

(** ** Further properties: the run of [main] *)

Lemma gets_app (a b : list event) : gets (a ++ b) = (gets a ++ gets b)%list.
Proof. apply flat_map_app. Qed.

Lemma total_sleep_app (a b : list event) :
  (total_sleep (a ++ b) == total_sleep a + total_sleep b)%Q.
Proof.
  induction a as [|e a IH]; simpl.
  - lra.
  - destruct e; try exact IH. rewrite IH. lra.
Qed.

(** ** Further properties: the file and the summary *)




Lemma keys_blank_nulls (r : dict pyval) :
  Dict.keys (blank_nulls r) = Dict.keys r.
Proof.
  unfold Dict.keys, blank_nulls. rewrite map_map. reflexivity.
Qed.

Lemma get_blank_nulls (r : dict pyval) (k : string) :
  Pandas.cell (match Dict.get (blank_nulls r) k with
               | Some v => v
               | None => PNone
               end)
  = Pandas.cell (match Dict.get r k with
                 | Some v => v
                 | None => PNone
                 end).
Proof.
  induction r as [|[k' v] r IH]; simpl; [reflexivity|].
  destruct (String.eqb k' k); [now destruct v|exact IH].
Qed.

Lemma columns_blank_nulls (data : list (dict pyval)) (init : list string) :
  fold_left (fun cols r => fold_left Pandas.add_key (Dict.keys r) cols)
            (map blank_nulls data) init
  = fold_left (fun cols r => fold_left Pandas.add_key (Dict.keys r) cols)
              data init.
Proof.
  revert init; induction data as [|r data IH]; intros init; simpl;
    [reflexivity|].
  now rewrite keys_blank_nulls, IH.
Qed.

(** The file does not tell a missing value from an empty string: writing
    the records with every null replaced by the empty string gives the same
    file, so a field whose element is absent and a field whose element has
    no text look alike once written.  (Lines 99-137, 194.) *)
Theorem nulls_and_empty_strings_same_file :
  forall lineterminator quote_all_newlines data,
    Pandas.to_csv_text lineterminator quote_all_newlines
      (Pandas.from_records (map blank_nulls data))
    = Pandas.to_csv_text lineterminator quote_all_newlines
        (Pandas.from_records data).
Proof.
  intros lineterminator quote_all_newlines data.
  unfold Pandas.to_csv_text. f_equal. unfold Pandas.rows.
  assert (Hcols : columns (Pandas.from_records (map blank_nulls data))
                  = columns (Pandas.from_records data)).
  { unfold Pandas.from_records; cbn [columns]. apply columns_blank_nulls. }
  rewrite !from_records_values, Hcols. f_equal.
  rewrite !map_map. apply map_ext. intros r.
  rewrite !map_map. apply map_ext. intros k. apply get_blank_nulls.
Qed.

Lemma length_filter_map {A B} (p : B -> bool) (g : A -> B) (l : list A) :
  length (filter p (map g l)) = length (filter (fun x => p (g x)) l).
Proof.
  induction l as [|x l IH]; simpl; [reflexivity|].
  destruct (p (g x)); simpl; now rewrite IH.
Qed.

(** The summary counts of [main], for records with the six fields: the
    frame has one row per record, selecting a field raises no KeyError, and
    the count printed for a field is the number of records that hold a
    string there, the empty string included; it is at most the number of
    rows.  (Lines 186, 199-202.) *)
Theorem summary_counts :
  forall data key,
    data <> [] ->
    Forall (fun r => Dict.keys r = field_names) data ->
    In key field_names ->
    let df := Pandas.from_records data in
    Summary.len df = length data
    /\ Summary.notna_sum df key
       = Some (length (filter (Summary.has_value key) data))
    /\ length (filter (Summary.has_value key) data) <= Summary.len df.
Proof.
  intros data key Hne Hkeys Hkey df.
  assert (Hlen : Summary.len df = length data).
  { unfold Summary.len, df. now rewrite from_records_values, length_map. }
  split; [exact Hlen|]. split; [|rewrite Hlen; apply filter_length_le].
  unfold Summary.notna_sum, Summary.column, df.
  rewrite from_records_values, (from_records_columns data Hne Hkeys).
  simpl in Hkey.
  repeat (destruct Hkey as [<-|Hkey];
          [cbn [Summary.index_of field_names String.eqb Ascii.eqb Bool.eqb
                option_map];
           rewrite map_map; cbn [map nth option_map];
           rewrite length_filter_map; do 2 f_equal;
           apply filter_ext; intros r; cbv [field_names map nth];
           unfold Summary.has_value, Summary.notna;
           destruct (Dict.get r _) as [[|s]|]; reflexivity|]).
  destruct Hkey.
Qed.

Lemma summary_counts_witness :
  Summary.notna_sum
    (Pandas.from_records
       [Detail.failed "123";
        Detail.scraped "456"
          (BeautifulSoup Samples.parser Samples.empty_title_markup)])
    "job_title" = Some 1.
Proof.
  apply (summary_counts
           [Detail.failed "123";
            Detail.scraped "456"
              (BeautifulSoup Samples.parser Samples.empty_title_markup)]
           "job_title").
  - discriminate.
  - repeat constructor.
  - right. left. reflexivity.
Defined.

(** ** The script with the parser's refusal: running the monad *)

Section FullFacts.

Variable network : nat -> string -> request_exception + Response.
Variable uniform : nat -> Q -> Q -> Q.
Variable parser_rejects : string -> bool.
Variable html_parser : string -> list node.

Lemma full_get_job_ids_run (title location : string) (start : Z) (w : world) :
  Full.get_job_ids network parser_rejects html_parser title location start w
  = (Full.fetch_outcome parser_rejects html_parser [] Listing.ids_of
       (network (requests_sent w) (list_url title location start)),
     after_get (list_url title location start) w).
Proof.
  unfold Full.get_job_ids, try_except, bind at 1, requests_get,
    Full.fetch_outcome.
  destruct (network (requests_sent w) (list_url title location start))
    as [e|response]; [reflexivity|].
  unfold bind at 1, raise_for_status, status_raises.
  destruct ((400 <=? status_code response) && (status_code response <? 600))%Z;
    [reflexivity|].
  unfold ret at 1, bind, Full.BeautifulSoup.
  destruct (parser_rejects (text response)); [reflexivity|].
  unfold ret at 1. rewrite for_each_extract. reflexivity.
Qed.

Lemma full_scrape_job_details_run (job_id : string) (w : world) :
  Full.scrape_job_details network parser_rejects html_parser job_id w
  = (Full.fetch_outcome parser_rejects html_parser (Detail.failed job_id)
       (Detail.scraped job_id) (network (requests_sent w) (job_url job_id)),
     after_get (job_url job_id) w).
Proof.
  unfold Full.scrape_job_details, try_except, bind at 1, requests_get,
    Full.fetch_outcome.
  destruct (network (requests_sent w) (job_url job_id)) as [e|response];
    [reflexivity|].
  unfold bind at 1, raise_for_status, status_raises.
  destruct ((400 <=? status_code response) && (status_code response <? 600))%Z;
    [reflexivity|].
  unfold ret at 1, bind at 1, Full.BeautifulSoup.
  destruct (parser_rejects (text response)); [reflexivity|].
  unfold ret at 1, bind.
  repeat rewrite extract_field_run.
  reflexivity.
Qed.

Lemma accepted_outcome (n : nat) (job_id : string) :
  Full.accepted parser_rejects (network n (job_url job_id)) = true ->
  Full.fetch_outcome parser_rejects html_parser (Detail.failed job_id)
    (Detail.scraped job_id) (network n (job_url job_id))
  = Ok (Detail.details_at network html_parser n job_id).
Proof.
  unfold Full.accepted, Full.fetch_outcome, Detail.details_at, BeautifulSoup.
  destruct (network n (job_url job_id)) as [e|response]; [reflexivity|].
  destruct (status_raises response); [reflexivity|].
  simpl. intros H. apply negb_true_iff in H. now rewrite H.
Qed.

Lemma rejected_outcome (n : nat) (job_id : string) :
  Full.accepted parser_rejects (network n (job_url job_id)) = false ->
  Full.fetch_outcome parser_rejects html_parser (Detail.failed job_id)
    (Detail.scraped job_id) (network n (job_url job_id))
  = Raise ParserRejectedMarkup.
Proof.
  unfold Full.accepted, Full.fetch_outcome.
  destruct (network n (job_url job_id)) as [e|response]; [discriminate|].
  destruct (status_raises response); [discriminate|].
  simpl. intros H. apply negb_false_iff in H. now rewrite H.
Qed.

Lemma full_process_job_run (job_id : string) (job_list : list (dict pyval))
    (w : world) :
  Full.accepted parser_rejects (network (requests_sent w) (job_url job_id))
  = true ->
  Full.process_job network uniform parser_rejects html_parser job_id job_list w
  = (Ok (job_list ++ [Detail.details_at network html_parser (requests_sent w) job_id])%list,
     {| requests_sent := S (requests_sent w);
        randoms_drawn := S (randoms_drawn w);
        trace := trace w ++
                 Full.iteration network uniform html_parser
                   (requests_sent w) (randoms_drawn w) job_id |}).
Proof.
  intros Hacc. unfold Full.process_job, bind.
  rewrite full_scrape_job_details_run, (accepted_outcome _ _ Hacc).
  unfold list_append, Full.random_uniform, time_sleep, ret, log, after_get,
    Full.iteration; simpl.
  repeat rewrite <- app_assoc. reflexivity.
Qed.

Lemma full_process_job_rejected (job_id : string)
    (job_list : list (dict pyval)) (w : world) :
  Full.accepted parser_rejects (network (requests_sent w) (job_url job_id))
  = false ->
  Full.process_job network uniform parser_rejects html_parser job_id job_list w
  = (Raise ParserRejectedMarkup, after_get (job_url job_id) w).
Proof.
  intros Hrej. unfold Full.process_job, bind.
  now rewrite full_scrape_job_details_run, (rejected_outcome _ _ Hrej).
Qed.

Lemma full_for_each_process_job (ids : list string)
    (job_list : list (dict pyval)) (w : world) :
  Full.details_accepted network parser_rejects (requests_sent w) ids = true ->
  for_each ids (Full.process_job network uniform parser_rejects html_parser)
    job_list w
  = (Ok (job_list ++ Detail.details_from network html_parser (requests_sent w) ids)%list,
     {| requests_sent := requests_sent w + length ids;
        randoms_drawn := randoms_drawn w + length ids;
        trace := trace w ++
                 Full.events network uniform html_parser
                   (requests_sent w) (randoms_drawn w) ids |}).
Proof.
  revert job_list w; induction ids as [|job_id ids IH]; intros job_list w Hacc.
  - simpl. unfold ret. rewrite !Nat.add_0_r, !app_nil_r. now destruct w.
  - simpl in Hacc. apply andb_true_iff in Hacc. destruct Hacc as [Hhd Htl].
    simpl. unfold bind. rewrite (full_process_job_run _ _ _ Hhd).
    rewrite IH by exact Htl. simpl.
    rewrite <- !app_assoc, !Nat.add_succ_r. reflexivity.
Qed.

Lemma for_each_app {A S} (a b : list A) (body : A -> S -> M S) (s : S)
    (w : world) :
  for_each (a ++ b) body s w
  = match for_each a body s w with
    | (Ok s', w') => for_each b body s' w'
    | (Raise e, w') => (Raise e, w')
    end.
Proof.
  revert s w; induction a as [|x a IH]; intros s w; simpl; [reflexivity|].
  unfold bind. destruct (body x s w) as [[s'|e] w']; [apply IH|reflexivity].
Qed.

Lemma full_events_no_file (ids : list string) (n r : nat) :
  filter Loop.is_to_csv (Full.events network uniform html_parser n r ids) = [].
Proof.
  revert n r; induction ids as [|job_id ids IH]; intros n r; simpl;
    [reflexivity|apply IH].
Qed.

Lemma full_events_appended (ids : list string) (n r : nat) :
  Loop.appended (Full.events network uniform html_parser n r ids)
  = Detail.details_from network html_parser n ids.
Proof.
  revert n r; induction ids as [|job_id ids IH]; intros n r; simpl;
    [reflexivity|].
  f_equal. apply IH.
Qed.

Lemma full_events_length (ids : list string) (n r : nat) :
  length (Full.events network uniform html_parser n r ids) = 3 * length ids.
Proof.
  revert n r; induction ids as [|job_id ids IH]; intros n r; simpl;
    [reflexivity|].
  rewrite IH. lia.
Qed.

Lemma full_events_nth (ids : list string) (n r i : nat) (job_id : string) :
  nth_error ids i = Some job_id ->
  forall k, k < 3 ->
    nth_error (Full.events network uniform html_parser n r ids) (3 * i + k)
    = nth_error (Full.iteration network uniform html_parser
                   (n + i) (r + i) job_id) k.
Proof.
  revert n r i; induction ids as [|x ids IH]; intros n r i Hnth k Hk.
  - destruct i; discriminate.
  - destruct i as [|i].
    + simpl in Hnth. injection Hnth as ->.
      rewrite !Nat.add_0_r. simpl.
      destruct k as [|[|[|k]]]; try lia; reflexivity.
    + simpl in Hnth.
      replace (3 * S i + k) with (S (S (S (3 * i + k)))) by lia.
      simpl Full.events. cbn [app nth_error].
      rewrite (IH (S n) (S r) i Hnth k Hk).
      now rewrite !Nat.add_succ_r.
Qed.

Lemma full_events_gets (ids : list string) (n r : nat) :
  gets (Full.events network uniform html_parser n r ids)
  = map (fun job_id => (job_url job_id, headers)) ids.
Proof.
  revert n r; induction ids as [|job_id ids IH]; intros n r; simpl;
    [reflexivity|].
  f_equal. apply IH.
Qed.

Lemma details_accepted_nth (ids : list string) (n i : nat) (job_id : string) :
  Full.details_accepted network parser_rejects n ids = true ->
  nth_error ids i = Some job_id ->
  Full.accepted parser_rejects (network (n + i) (job_url job_id)) = true.
Proof.
  revert n i; induction ids as [|x ids IH]; intros n i Hacc Hnth.
  - destruct i; discriminate.
  - simpl in Hacc. apply andb_true_iff in Hacc. destruct Hacc as [Hhd Htl].
    destruct i as [|i]; simpl in Hnth.
    + injection Hnth as ->. now rewrite Nat.add_0_r.
    + rewrite Nat.add_succ_r. apply (IH (S n) i Htl Hnth).
Qed.

Lemma details_from_nth (ids : list string) (n i : nat) (job_id : string) :
  nth_error ids i = Some job_id ->
  nth_error (Detail.details_from network html_parser n ids) i
  = Some (Detail.details_at network html_parser (n + i) job_id).
Proof.
  revert n i; induction ids as [|x ids IH]; intros n i Hnth;
    [destruct i; discriminate|].
  destruct i as [|i]; simpl in *.
  - injection Hnth as ->. now rewrite Nat.add_0_r.
  - rewrite (IH (S n) i Hnth). now rewrite Nat.add_succ_r.
Qed.

Variable os_linesep : string.
Variable quote_all_newlines : bool.

(** The run of [main] when the listing gives identifiers and every detail
    page is accepted. *)
Lemma full_main_with_trace (title location : string) (start : Z) (w : world)
    (ids : list string) :
  fst (Full.get_job_ids network parser_rejects html_parser title location
         start w) = Ok ids ->
  ids <> [] ->
  Full.details_accepted network parser_rejects (S (requests_sent w)) ids
  = true ->
  Full.main_with network uniform parser_rejects html_parser os_linesep
    quote_all_newlines title location start w
  = (Ok tt,
     {| requests_sent := S (requests_sent w) + length ids;
        randoms_drawn := randoms_drawn w + length ids;
        trace :=
          (trace w ++ [EvGet (list_url title location start) headers]) ++
          Full.events network uniform html_parser
            (S (requests_sent w)) (randoms_drawn w) ids ++
          [EvToCsv (output_filename title location)
             (Csv.writerows os_linesep quote_all_newlines
                (file_rows (Detail.details_from network html_parser
                              (S (requests_sent w)) ids)))] |}).
Proof.
  intros Hids Hne Hacc.
  rewrite full_get_job_ids_run in Hids. cbn [fst] in Hids.
  unfold Full.main_with, bind at 1. rewrite full_get_job_ids_run, Hids.
  destruct ids as [|job_id ids]; [congruence|].
  unfold bind. rewrite full_for_each_process_job by exact Hacc.
  cbn [app].
  change (requests_sent (after_get (list_url title location start) w))
    with (S (requests_sent w)).
  change (randoms_drawn (after_get (list_url title location start) w))
    with (randoms_drawn w).
  change (trace (after_get (list_url title location start) w))
    with (trace w ++ [EvGet (list_url title location start) headers])%list.
  pose proof (details_from_keys network html_parser (job_id :: ids)
                (S (requests_sent w))) as Hkeys.
  destruct (Detail.details_from network html_parser (S (requests_sent w))
              (job_id :: ids)) as [|r job_list] eqn:Hjobs; [discriminate|].
  unfold to_csv, log, Pandas.to_csv_text.
  rewrite from_records_rows by (congruence || assumption).
  cbn [requests_sent randoms_drawn trace].
  rewrite <- !app_assoc. reflexivity.
Qed.

End FullFacts.

(** ** Transport failures *)

(** C3, as amended.  When [requests.get] raises an exception of [requests]
    or the response has a status that [raise_for_status] rejects (400-599),
    no exception escapes the fetch function: [get_job_ids] returns the empty
    list, and [scrape_job_details] returns the record with the input
    identifier and the five other fields null.  This holds whatever the
    parser does with the body, since the body is not parsed then. *)
Theorem transport_failure_contained :
  forall network parser_rejects html_parser title location start job_id w,
    (transport_failure (network (requests_sent w) (list_url title location start))
     = true ->
     fst (Full.get_job_ids network parser_rejects html_parser
            title location start w) = Ok [])
    /\ (transport_failure (network (requests_sent w) (job_url job_id)) = true ->
        fst (Full.scrape_job_details network parser_rejects html_parser
               job_id w)
        = Ok [("job_id", PStr job_id); ("job_title", PNone);
              ("company_name", PNone); ("time_posted", PNone);
              ("num_applicants", PNone); ("location", PNone)]).
Proof.
  intros network parser_rejects html_parser title location start job_id w.
  rewrite full_get_job_ids_run, full_scrape_job_details_run. cbn [fst].
  unfold Full.fetch_outcome, transport_failure. split.
  - destruct (network (requests_sent w) (list_url title location start))
      as [e|response]; [reflexivity|].
    intros ->. reflexivity.
  - destruct (network (requests_sent w) (job_url job_id)) as [e|response];
      [reflexivity|].
    intros ->. reflexivity.
Qed.

Lemma transport_failure_contained_witness :
  fst (Full.get_job_ids Samples.offline Cases.rejects Samples.parser
         "Python Developer" "Toronto" 0 initial_world) = Ok []
  /\ fst (Full.scrape_job_details
            (fun _ _ => inr {| status_code := 503;
                               text := Cases.rejected_markup |})
            Cases.rejects Samples.parser "123" initial_world)
     = Ok (Detail.failed "123").
Proof.
  split.
  - apply (proj1 (transport_failure_contained Samples.offline Cases.rejects
                    Samples.parser "Python Developer" "Toronto" 0%Z "123"
                    initial_world)).
    reflexivity.
  - apply (proj2 (transport_failure_contained
                    (fun _ _ => inr {| status_code := 503;
                                       text := Cases.rejected_markup |})
                    Cases.rejects Samples.parser
                    "Python Developer" "Toronto" 0%Z "123" initial_world)).
    reflexivity.
Defined.

(** C3, as stated, fails: a response with status 999 (or 304) is a
    non-success status, but [raise_for_status] accepts it; the body is
    parsed, [get_job_ids] returns its identifiers and [scrape_job_details]
    a populated record. *)
Lemma status_999_is_parsed :
  failure_in_words (Cases.denied Samples.two_jobs_markup 0
                      (list_url "Python Developer" "Toronto" 0)) = true
  /\ fst (Full.get_job_ids (Cases.denied Samples.two_jobs_markup)
            Cases.accepts_all Samples.parser
            "Python Developer" "Toronto" 0 initial_world)
     = Ok ["123"; "456"]
  /\ failure_in_words (Cases.denied Samples.full_detail_markup 0
                         (job_url "123")) = true
  /\ fst (Full.scrape_job_details (Cases.denied Samples.full_detail_markup)
            Cases.accepts_all Samples.parser "123" initial_world)
     = Ok [("job_id", PStr "123"); ("job_title", PStr "Python Developer");
           ("company_name", PStr "Acme"); ("time_posted", PStr "2 days ago");
           ("num_applicants", PStr "25 applicants");
           ("location", PStr "Toronto, ON")]
  /\ fst (Full.get_job_ids
            (fun _ _ => inr {| status_code := 304;
                               text := Samples.two_jobs_markup |})
            Cases.accepts_all Samples.parser
            "Python Developer" "Toronto" 0 initial_world)
     <> Ok [].
Proof.
  repeat split; try reflexivity. vm_compute. discriminate.
Qed.

(** ** The orchestrator, to the end of the run *)




(** C4, as amended.  Let the line terminator be LF or CR LF.  When the
    listing gives a non-empty identifier sequence, the parser accepts every
    detail page, and the csv writer quotes carriage returns or no field of
    the records holds one, [main] writes one file: its name is the location
    and the title with every space replaced by an underscore, joined by an
    underscore and followed by [_jobs.csv]; read back, the file has the row
    of the six field names and then exactly one row of six cells per
    record, in the order the records were appended and with the cells in
    field order.  If moreover no identifier is empty and every detail fetch
    fully succeeds (as for the identifiers 123 and 456 of the example),
    every cell of every data row is populated. *)
Theorem main_writes_table :
  forall network uniform parser_rejects html_parser os_linesep
         quote_all_newlines title location start w ids,
    os_linesep = LF_str \/ os_linesep = CRLF_str ->
    fst (Full.get_job_ids network parser_rejects html_parser title location
           start w) = Ok ids ->
    ids <> [] ->
    Full.details_accepted network parser_rejects (S (requests_sent w)) ids
    = true ->
    let job_list :=
      Detail.details_from network html_parser (S (requests_sent w)) ids in
    quotes_CR os_linesep quote_all_newlines = true
    \/ Forall (Forall (fun c => has_CR c = false)) (map record_row job_list) ->
    exists w' contents,
      Full.main_with network uniform parser_rejects html_parser os_linesep
        quote_all_newlines title location start w = (Ok tt, w')
      /\ Loop.appended (trace w') = (Loop.appended (trace w) ++ job_list)%list
      /\ filter Loop.is_to_csv (trace w') =
         (filter Loop.is_to_csv (trace w) ++
          [EvToCsv (Str.replace " " "_" location ++ "_"
                    ++ Str.replace " " "_" title ++ "_jobs.csv")
             contents])%list
      /\ Csv.reader contents =
         field_names ::
         map (fun r =>
                map (fun k => match Dict.get r k with
                              | Some v => Pandas.cell v
                              | None => EmptyString
                              end) field_names) job_list
      /\ length job_list = length ids
      /\ Forall2 (fun job_id r => Dict.get r "job_id" = Some (PStr job_id))
                 ids job_list
      /\ (Forall (fun job_id => job_id <> EmptyString) ids ->
          Detail.all_succeed network html_parser (S (requests_sent w)) ids
          = true ->
          Forall (fun row => length row = 6
                             /\ Forall (fun c => c <> EmptyString) row)
                 (map record_row job_list)).
Proof.
  intros network uniform parser_rejects html_parser os_linesep
    quote_all_newlines title location start w ids Hlt Hids Hne Hacc
    job_list Hcr.
  exists (snd (Full.main_with network uniform parser_rejects html_parser
                 os_linesep quote_all_newlines title location start w)),
         (Csv.writerows os_linesep quote_all_newlines (file_rows job_list)).
  rewrite (full_main_with_trace network uniform parser_rejects html_parser
             os_linesep quote_all_newlines title location start w ids
             Hids Hne Hacc).
  cbn [snd trace]. split; [reflexivity|].
  split.
  { rewrite !appended_app, full_events_appended.
    cbn [Loop.appended flat_map app]. now rewrite !app_nil_r. }
  split.
  { rewrite !filter_app, full_events_no_file. cbn [filter Loop.is_to_csv app].
    now rewrite app_nil_r. }
  split.
  { rewrite (reader_writerows os_linesep quote_all_newlines Hlt);
      [reflexivity|].
    unfold file_rows. constructor.
    - apply Forall_forall. intros c Hc. right.
      simpl in Hc.
      repeat (destruct Hc as [<-|Hc]; [reflexivity|]). destruct Hc.
    - destruct Hcr as [Hq|Hfree].
      + apply Forall_forall. intros row _. apply Forall_forall. intros c _.
        now left.
      + eapply Forall_impl; [|exact Hfree]. intros row Hrow.
        eapply Forall_impl; [|exact Hrow]. intros c Hc. now right. }
  split; [apply details_from_length|].
  split; [apply details_from_job_ids|].
  intros Hnonempty Hall.
  pose proof (all_succeed_populated network html_parser ids
                (S (requests_sent w)) Hnonempty Hall) as Hpop.
  apply Forall_forall. intros row Hrow. split.
  - apply in_map_iff in Hrow. destruct Hrow as [r [<- _]].
    apply record_row_length.
  - exact (proj1 (Forall_forall _ _) Hpop row Hrow).
Qed.

Lemma main_writes_table_witness :
  exists w' contents,
    Full.main Samples.two_jobs_site Cases.two_seconds Cases.rejects
      Samples.parser LF_str false initial_world = (Ok tt, w')
    /\ filter Loop.is_to_csv (trace w') =
       [EvToCsv "Toronto_Python_Developer_jobs.csv" contents]
    /\ Csv.reader contents =
       [field_names;
        ["123"; "Python Developer"; "Acme"; "2 days ago"; "25 applicants";
         "Toronto, ON"];
        ["456"; "Python Developer"; "Acme"; "2 days ago"; "25 applicants";
         "Toronto, ON"]].
Proof.
  destruct (main_writes_table Samples.two_jobs_site Cases.two_seconds
              Cases.rejects Samples.parser LF_str false
              "Python Developer" "Toronto" 0%Z initial_world ["123"; "456"])
    as [w' [contents [Hrun [_ [Hfile [Hread _]]]]]].
  - left. reflexivity.
  - reflexivity.
  - discriminate.
  - reflexivity.
  - right. vm_compute. repeat constructor.
  - exists w', contents. split; [exact Hrun|]. split; [exact Hfile|].
    exact Hread.
Defined.

(** C4, as stated, fails: with LF as line terminator, identifiers 123 and
    456 and both detail fetches fully succeeding with a title that holds a
    bare carriage return, the file that [main] writes reads back as a
    header row and four data rows, of 2, 5, 2 and 5 cells. *)
Lemma main_table_bare_CR_splits_rows :
  exists w' path contents,
    Full.main Cases.cr_site Cases.two_seconds Cases.accepts_all Cases.parser
      LF_str false initial_world = (Ok tt, w')
    /\ Detail.all_succeed Cases.cr_site Cases.parser 1 ["123"; "456"] = true
    /\ filter Loop.is_to_csv (trace w') = [EvToCsv path contents]
    /\ map (@length string) (Csv.reader contents) = [6; 2; 5; 2; 5].
Proof.
  do 3 eexists. split; [vm_compute; reflexivity|].
  split; [reflexivity|]. split; reflexivity.
Qed.

(** ** Further properties, with the parser's refusal *)

(** No identifier in a list that [get_job_ids] returns holds a colon: an
    identifier is one segment between colons, and what follows the fourth
    segment of an attribute is dropped.  (Line 55.) *)
Theorem job_ids_have_no_colon :
  forall network parser_rejects html_parser title location start w ids,
    fst (Full.get_job_ids network parser_rejects html_parser title location
           start w) = Ok ids ->
    Forall (fun job_id => mem_char ":" job_id = false) ids.
Proof.
  intros network parser_rejects html_parser title location start w ids.
  rewrite full_get_job_ids_run. cbn [fst]. unfold Full.fetch_outcome.
  destruct (network (requests_sent w) (list_url title location start))
    as [e|response]; [intros [= <-]; constructor|].
  destruct (status_raises response); [intros [= <-]; constructor|].
  destruct (parser_rejects (text response)); [discriminate|].
  intros [= <-]. unfold Listing.ids_of. apply Forall_forall. intros x Hin.
  apply in_map_iff in Hin. destruct Hin as [job [<- _]].
  apply entry_id_no_colon.
Qed.

Lemma job_ids_have_no_colon_witness :
  Forall (fun job_id => mem_char ":" job_id = false) ["123"; ""].
Proof.
  exact (job_ids_have_no_colon (Samples.serve Samples.listing_markup)
           Cases.rejects Samples.parser "Python Developer" "Toronto" 0%Z
           initial_world ["123"; ""] eq_refl).
Defined.

(** [scrape_job_details] sends exactly one request, to the posting URL made
    of the identifier as it is, whatever happens next.  It raises
    ParserRejectedMarkup exactly when the request is answered with a status
    that [raise_for_status] accepts and a body that the parser rejects, and
    raises nothing else; in every other case it returns a record with the
    six keys in declaration order, the identifier under [job_id] and at
    most five nulls.  (Lines 79-144.) *)
Theorem scrape_job_details_shape :
  forall network parser_rejects html_parser job_id w,
  exists result,
    Full.scrape_job_details network parser_rejects html_parser job_id w
    = (result,
       {| requests_sent := S (requests_sent w);
          randoms_drawn := randoms_drawn w;
          trace := trace w ++
                   [EvGet ("https://www.linkedin.com/jobs-guest/jobs/api/jobPosting/"
                           ++ job_id) headers] |})
    /\ match result with
       | Ok job_post =>
           Full.accepted parser_rejects
             (network (requests_sent w) (job_url job_id)) = true
           /\ Dict.keys job_post = field_names
           /\ Dict.get job_post "job_id" = Some (PStr job_id)
           /\ Detail.null_count job_post <= 5
       | Raise e =>
           e = ParserRejectedMarkup
           /\ exists response,
                network (requests_sent w) (job_url job_id) = inr response
                /\ status_raises response = false
                /\ parser_rejects (text response) = true
       end.
Proof.
  intros network parser_rejects html_parser job_id w.
  rewrite full_scrape_job_details_run. eexists. split; [reflexivity|].
  unfold Full.fetch_outcome, Full.accepted.
  destruct (network (requests_sent w) (job_url job_id)) as [e|response].
  { repeat split. apply Nat.le_refl. }
  destruct (status_raises response) eqn:Hstatus.
  { repeat split. apply Nat.le_refl. }
  destruct (parser_rejects (text response)) eqn:Hrej.
  { split; [reflexivity|]. exists response. repeat split; assumption. }
  split; [reflexivity|]. split; [reflexivity|]. split; [reflexivity|].
  unfold Detail.null_count, Detail.scraped. cbn [map snd filter is_none].
  repeat match goal with
         | |- context [is_none ?v] => destruct (is_none v)
         end; simpl; lia.
Qed.

(** When the parser accepts the listing page and every detail page, a run
    of [main] sends exactly 1 + n requests for n identifiers: the listing
    URL first, then the posting URL of each identifier in listing order,
    each once (a failed request is not sent again) and each with the fixed
    User-Agent header; and it calls [random.uniform] exactly n times.
    (Lines 162-181.) *)
Theorem main_requests :
  forall network uniform parser_rejects html_parser os_linesep
         quote_all_newlines title location start w ids,
    fst (Full.get_job_ids network parser_rejects html_parser title location
           start w) = Ok ids ->
    Full.details_accepted network parser_rejects (S (requests_sent w)) ids
    = true ->
    exists w',
      Full.main_with network uniform parser_rejects html_parser os_linesep
        quote_all_newlines title location start w = (Ok tt, w')
      /\ gets (trace w')
         = (gets (trace w) ++
            (list_url title location start, headers)
            :: map (fun job_id => (job_url job_id, headers)) ids)%list
      /\ requests_sent w' = requests_sent w + 1 + length ids
      /\ randoms_drawn w' = randoms_drawn w + length ids.
Proof.
  intros network uniform parser_rejects html_parser os_linesep
    quote_all_newlines title location start w ids Hids Hacc.
  destruct ids as [|job_id ids].
  - rewrite full_get_job_ids_run in Hids. cbn [fst] in Hids.
    unfold Full.main_with, bind. rewrite full_get_job_ids_run, Hids.
    eexists. split; [reflexivity|].
    unfold after_get; cbn [trace requests_sent randoms_drawn length map].
    rewrite gets_app. simpl. split; [reflexivity|]. lia.
  - rewrite (full_main_with_trace network uniform parser_rejects html_parser
               os_linesep quote_all_newlines title location start w
               (job_id :: ids) Hids ltac:(discriminate) Hacc).
    eexists. split; [reflexivity|].
    cbn [trace requests_sent randoms_drawn].
    rewrite !gets_app, full_events_gets. cbn [gets flat_map app].
    rewrite app_nil_r, <- app_assoc. split; [reflexivity|]. lia.
Qed.

Lemma main_requests_witness :
  exists w',
    Full.main Samples.failing_site Cases.two_seconds Cases.rejects
      Samples.parser LF_str false initial_world = (Ok tt, w')
    /\ requests_sent w' = 3
    /\ randoms_drawn w' = 2.
Proof.
  destruct (main_requests Samples.failing_site Cases.two_seconds
              Cases.rejects Samples.parser LF_str false
              "Python Developer" "Toronto" 0%Z initial_world ["123"; "456"]
              eq_refl eq_refl)
    as [w' [Hrun [_ [Hreq Hrand]]]].
  exists w'. split; [exact Hrun|]. split; [exact Hreq | exact Hrand].
Defined.

Lemma full_total_sleep_events network uniform html_parser
    (ids : list string) (n r : nat) :
  (forall k, (1 <= uniform k 1 3 /\ uniform k 1 3 <= 3)%Q) ->
  (inject_Z (Z.of_nat (length ids))
   <= total_sleep (Full.events network uniform html_parser n r ids)
   /\ total_sleep (Full.events network uniform html_parser n r ids)
      <= 3 * inject_Z (Z.of_nat (length ids)))%Q.
Proof.
  intros Hdraw. revert n r; induction ids as [|job_id ids IH]; intros n r.
  - cbn [Full.events total_sleep length].
    change (inject_Z (Z.of_nat 0)) with 0%Q. split; lra.
  - cbn [Full.events Full.iteration app total_sleep length].
    rewrite Nat2Z.inj_succ. unfold Z.succ. rewrite inject_Z_plus.
    destruct (IH (S n) (S r)) as [Hlo Hhi].
    destruct (Hdraw r) as [H1 H3].
    change (inject_Z 1) with 1%Q. split; lra.
Qed.

(** When the parser accepts the listing page and every detail page, and
    each call [random.uniform(1, 3)] returns a number between 1 and 3 (what
    the library promises), the pauses of a run over n identifiers add up
    to between n and 3n seconds.  (Lines 180-181.) *)
Theorem main_sleeps_between_n_and_3n :
  forall network uniform parser_rejects html_parser os_linesep
         quote_all_newlines title location start w ids,
    (forall k, (1 <= uniform k 1 3 /\ uniform k 1 3 <= 3)%Q) ->
    fst (Full.get_job_ids network parser_rejects html_parser title location
           start w) = Ok ids ->
    Full.details_accepted network parser_rejects (S (requests_sent w)) ids
    = true ->
    exists w',
      Full.main_with network uniform parser_rejects html_parser os_linesep
        quote_all_newlines title location start w = (Ok tt, w')
      /\ (total_sleep (trace w) + inject_Z (Z.of_nat (length ids))
          <= total_sleep (trace w'))%Q
      /\ (total_sleep (trace w')
          <= total_sleep (trace w) + 3 * inject_Z (Z.of_nat (length ids)))%Q.
Proof.
  intros network uniform parser_rejects html_parser os_linesep
    quote_all_newlines title location start w ids Hdraw Hids Hacc.
  destruct ids as [|job_id ids].
  - rewrite full_get_job_ids_run in Hids. cbn [fst] in Hids.
    unfold Full.main_with, bind. rewrite full_get_job_ids_run, Hids.
    eexists. split; [reflexivity|].
    unfold after_get; cbn [trace length]. rewrite total_sleep_app.
    cbn [total_sleep]. change (inject_Z (Z.of_nat 0)) with 0%Q. split; lra.
  - rewrite (full_main_with_trace network uniform parser_rejects html_parser
               os_linesep quote_all_newlines title location start w
               (job_id :: ids) Hids ltac:(discriminate) Hacc).
    eexists. split; [reflexivity|].
    cbn [trace]. rewrite !total_sleep_app.
    destruct (full_total_sleep_events network uniform html_parser
                (job_id :: ids) (S (requests_sent w)) (randoms_drawn w) Hdraw)
      as [Hlo Hhi].
    cbn [total_sleep]. split; lra.
Qed.

Lemma main_sleeps_between_n_and_3n_witness :
  exists w',
    Full.main Samples.two_jobs_site Cases.two_seconds Cases.rejects
      Samples.parser LF_str false initial_world = (Ok tt, w')
    /\ (2 <= total_sleep (trace w') /\ total_sleep (trace w') <= 6)%Q.
Proof.
  destruct (main_sleeps_between_n_and_3n Samples.two_jobs_site
              Cases.two_seconds Cases.rejects Samples.parser LF_str false
              "Python Developer" "Toronto" 0%Z initial_world ["123"; "456"])
    as [w' [Hrun [Hlo Hhi]]].
  - intros k. unfold Cases.two_seconds. split; discriminate.
  - reflexivity.
  - reflexivity.
  - exists w'. split; [exact Hrun|].
    change (total_sleep (trace initial_world)) with 0%Q in Hlo, Hhi.
    change (inject_Z (Z.of_nat (length ["123"; "456"]))) with 2%Q in Hlo, Hhi.
    split; lra.
Defined.

(** In the detail loop, when the parser accepts every detail page, the i-th
    iteration does three things in this order: it sends the detail request
    for the i-th identifier, appends to [job_list] the record that
    [scrape_job_details] returned for it, and sleeps for the number that
    the call [random.uniform(1, 3)] returned.  The loop over n identifiers
    makes exactly 3n actions, so it sleeps after every item, the last one
    included.  (Lines 174-181.) *)
Theorem detail_loop_iterations :
  forall network uniform parser_rejects html_parser ids job_list w,
    Full.details_accepted network parser_rejects (requests_sent w) ids = true ->
    exists job_list' w' t,
      for_each ids
        (Full.process_job network uniform parser_rejects html_parser)
        job_list w = (Ok job_list', w')
      /\ trace w' = (trace w ++ t)%list
      /\ length t = 3 * length ids
      /\ length job_list' = length job_list + length ids
      /\ forall i job_id,
           nth_error ids i = Some job_id ->
           exists job_details,
             (forall wi,
                requests_sent wi = requests_sent w + i ->
                fst (Full.scrape_job_details network parser_rejects
                       html_parser job_id wi) = Ok job_details)
             /\ nth_error t (3 * i) = Some (EvGet (job_url job_id) headers)
             /\ nth_error t (3 * i + 1) = Some (EvAppend job_details)
             /\ nth_error job_list' (length job_list + i) = Some job_details
             /\ nth_error t (3 * i + 2)
                = Some (EvSleep (uniform (randoms_drawn w + i) 1%Q 3%Q)).
Proof.
  intros network uniform parser_rejects html_parser ids job_list w Hacc.
  rewrite full_for_each_process_job by exact Hacc.
  do 3 eexists. split; [reflexivity|]. cbn [trace].
  split; [reflexivity|]. split; [apply full_events_length|].
  split; [now rewrite length_app, details_from_length|].
  intros i job_id Hnth.
  exists (Detail.details_at network html_parser (requests_sent w + i) job_id).
  pose proof (full_events_nth network uniform html_parser ids
                (requests_sent w) (randoms_drawn w) i job_id Hnth) as Hev.
  split.
  { intros wi Hwi. rewrite full_scrape_job_details_run. cbn [fst].
    rewrite Hwi. apply accepted_outcome.
    exact (details_accepted_nth network parser_rejects ids _ i job_id
             Hacc Hnth). }
  split; [rewrite <- (Nat.add_0_r (3 * i)); now rewrite (Hev 0) by lia|].
  split; [now rewrite (Hev 1) by lia|].
  split.
  { rewrite nth_error_app2 by lia.
    replace (length job_list + i - length job_list) with i by lia.
    now apply details_from_nth. }
  now rewrite (Hev 2) by lia.
Qed.

Lemma detail_loop_iterations_witness :
  exists job_list' w',
    for_each ["123"; "456"]
      (Full.process_job Samples.failing_site Cases.two_seconds Cases.rejects
         Samples.parser) []
      {| requests_sent := 1; randoms_drawn := 0; trace := [] |}
    = (Ok job_list', w')
    /\ length (trace w') = 6
    /\ nth_error (trace w') 4 = Some (EvAppend (Detail.failed "456"))
    /\ nth_error (trace w') 5 = Some (EvSleep 2%Q).
Proof.
  destruct (detail_loop_iterations Samples.failing_site Cases.two_seconds
              Cases.rejects Samples.parser ["123"; "456"] []
              {| requests_sent := 1; randoms_drawn := 0; trace := [] |}
              eq_refl)
    as [job_list' [w' [t [Hrun [Htrace [Hlen [_ Hiter]]]]]]].
  exists job_list', w'. split; [exact Hrun|].
  rewrite Htrace. cbn [trace app]. split; [exact Hlen|].
  destruct (Hiter 1 "456" eq_refl)
    as [job_details [Hscrape [_ [Happ [_ Hsleep]]]]].
  split; [|exact Hsleep].
  etransitivity; [exact Happ|]. f_equal. f_equal.
  specialize (Hscrape {| requests_sent := 2; randoms_drawn := 0; trace := [] |}
                eq_refl).
  vm_compute in Hscrape. now injection Hscrape as <-.
Defined.

(** When the parser rejects the page of an identifier, every page before
    it being accepted, [main] ends there with ParserRejectedMarkup: the
    records of the identifiers before it have been appended, the request
    for the rejected page has been sent, and no file is written.
    (Lines 81-89, 141, 174-177.) *)
Theorem main_stops_at_rejected_page :
  forall network uniform parser_rejects html_parser os_linesep
         quote_all_newlines title location start w done job_id rest,
    fst (Full.get_job_ids network parser_rejects html_parser title location
           start w) = Ok (done ++ job_id :: rest)%list ->
    Full.details_accepted network parser_rejects (S (requests_sent w)) done
    = true ->
    Full.accepted parser_rejects
      (network (S (requests_sent w) + length done) (job_url job_id)) = false ->
    exists w',
      Full.main_with network uniform parser_rejects html_parser os_linesep
        quote_all_newlines title location start w
      = (Raise ParserRejectedMarkup, w')
      /\ Loop.appended (trace w')
         = (Loop.appended (trace w) ++
            Detail.details_from network html_parser (S (requests_sent w)) done)%list
      /\ filter Loop.is_to_csv (trace w') = filter Loop.is_to_csv (trace w)
      /\ requests_sent w' = requests_sent w + 2 + length done.
Proof.
  intros network uniform parser_rejects html_parser os_linesep
    quote_all_newlines title location start w done job_id rest
    Hids Hacc Hrej.
  rewrite full_get_job_ids_run in Hids. cbn [fst] in Hids.
  unfold Full.main_with, bind at 1. rewrite full_get_job_ids_run, Hids.
  destruct (done ++ job_id :: rest)%list as [|x l] eqn:E;
    [now destruct done|].
  rewrite <- E. unfold bind at 1. rewrite for_each_app.
  rewrite full_for_each_process_job by exact Hacc.
  cbn [for_each]. unfold bind at 1.
  rewrite full_process_job_rejected by exact Hrej.
  eexists. split; [reflexivity|].
  unfold after_get. cbn [trace requests_sent].
  split.
  { rewrite !appended_app, full_events_appended.
    cbn [Loop.appended flat_map app]. now rewrite !app_nil_r. }
  split.
  { rewrite !filter_app, full_events_no_file. cbn [filter Loop.is_to_csv app].
    now rewrite !app_nil_r. }
  lia.
Qed.

Lemma main_stops_at_rejected_page_witness :
  exists w',
    Full.main Cases.rejected_site Cases.two_seconds Cases.rejects
      Samples.parser LF_str false initial_world
    = (Raise ParserRejectedMarkup, w')
    /\ requests_sent w' = 3
    /\ filter Loop.is_to_csv (trace w') = [].
Proof.
  destruct (main_stops_at_rejected_page Cases.rejected_site Cases.two_seconds
              Cases.rejects Samples.parser LF_str false
              "Python Developer" "Toronto" 0%Z initial_world
              ["123"] "456" [] eq_refl eq_refl eq_refl)
    as [w' [Hrun [_ [Hfile Hreq]]]].
  exists w'. split; [exact Hrun|]. split; [exact Hreq | exact Hfile].
Defined.

(** On pages that the parser accepts, and with the draw computed as
    [a + (b - a) * random()], the script with the refusal is the script of
    the first part. *)
Lemma full_main_accepting network random_random html_parser os_linesep
    quote_all_newlines title location start w :
  Full.main_with network
    (fun n a b => (a + (b - a) * random_random n)%Q)
    (fun _ => false) html_parser os_linesep quote_all_newlines
    title location start w
  = main_with network random_random html_parser os_linesep quote_all_newlines
      title location start w.
Proof. reflexivity. Qed.
